(** * PoseChallenge: pose scoring engine and challenge session

    A shallow embedding of [src/PoseChallenge.js]: the angle helper, the
    start-pose gate, the score evaluator, the result aggregator and the
    callbacks that drive the timed session.

    Modelling conventions.
    - A JavaScript number is a real number ([R]); IEEE-754 rounding, NaN and
      the infinities are not represented.  Divisions whose divisor comes from
      the configuration are only reasoned about under the hypothesis that
      the divisor is positive.
    - A [TypeError] raised by reading a property of [undefined] is the
      [Throw] case of [result].
    - The tables imported from [../data/challenges] (landmark indices,
      target angles, tolerances) are not part of the component; they are
      the fields of a [Config] value that every function takes.
    - A React callback is a function of the render it closes over (the
      [ChallengeState] and the challenge index of that render) and produces
      the list of effects it requests: state updaters, timers, log lines.
    - The detector keeps the listener it was given: [onResults] is
      registered once, inside [if (!poseRef.current)], so every frame is
      handled by the [onResults] of the first render, whatever the state
      committed since.  The closure that handles a frame and the state the
      queued updaters are applied to are therefore two arguments of
      [deliver_frame].
    - The challenge objects are created once and shared by every render
      ([...prev.challenges] copies the array, not the objects), and step 2
      of [onResults] assigns the score to the shared object.  The
      [challenges] of the committed state are the objects as they are now;
      a timer callback reads the objects through the array of its own
      render when it fires ([objects_now]). *)

From Stdlib Require Import Reals Lra Lia ZArith.
From stdpp Require Import base decidable option list strings.

Local Open Scope R_scope.

(** ** JavaScript primitives *)

Module JS.

Inductive exn : Type :=
| TypeError.

Inductive result (A : Type) : Type :=
| Ok (a : A)
| Throw (e : exn).

Arguments Ok {A} a.
Arguments Throw {A} e.

#[global] Instance result_ret : MRet result := fun A a => Ok a.

#[global] Instance result_bind : MBind result := fun A B f m =>
  match m with
  | Ok a => f a
  | Throw e => Throw e
  end.

(** [o.p] where [o] may be [undefined]. *)
Definition defined {A : Type} (o : option A) : result A :=
  match o with
  | Some a => Ok a
  | None => Throw TypeError
  end.

(** [a || b] on fallible operands: [b] is not evaluated when [a] is true. *)
Definition or_else (a b : result bool) : result bool :=
  v ← a; if (v : bool) then Ok true else b.

#[global] Instance Rlt_decision (a b : R) : Decision (a < b) := Rlt_dec a b.
#[global] Instance Rle_decision (a b : R) : Decision (a <= b) := Rle_dec a b.
#[global] Instance Rgt_decision (a b : R) : Decision (a > b) := Rgt_dec a b.
#[global] Instance R_eq_decision : EqDecision R := Req_dec_T.

(** [s.includes(sub)]. *)
Fixpoint includes (s sub : string) : bool :=
  String.prefix sub s ||
  match s with
  | EmptyString => false
  | String _ s' => includes s' sub
  end.

(** [Math.atan2(a, b)]: the angle of the point [(b, a)], in (-PI, PI]. *)
Definition atan2 (a b : R) : R :=
  if bool_decide (0 < b) then atan (a / b)
  else if bool_decide (b < 0) then
    if bool_decide (a < 0) then atan (a / b) - PI else atan (a / b) + PI
  else if bool_decide (0 < a) then PI / 2
  else if bool_decide (a < 0) then - (PI / 2)
  else 0.

(** [v.toFixed(1)] for finite [v]: the integer [n] for which [n / 10] is
    closest to [v], the larger one on a tie, after the sign of [v] has been
    set aside.  The decimal numeral printed is [n / 10] with one digit. *)
Definition toFixed1 (v : R) : Z :=
  if bool_decide (v < 0) then (- Int_part (10 * (- v) + / 2))%Z
  else Int_part (10 * v + / 2).

(** [parseFloat(v.toFixed(1))]. *)
Definition parseFloat_toFixed1 (v : R) : R := IZR (toFixed1 v) / 10.

End JS.

Import JS.

(** ** Data model *)

(** A detected landmark. *)
Record Point : Type := {
  x : R;
  y : R;
  z : option R;
  visibility : R
}.

(** [results.poseLandmarks]: an array whose entries may be missing. *)
Abbreviation Landmarks := (list (option Point)).

(** [landmarks[index]]. *)
Definition at_index (landmarks : Landmarks) (index : nat) : option Point :=
  mjoin (landmarks !! index).

(** [LANDMARKS] of [../data/challenges]: the indices the component reads. *)
Record LandmarkIndices : Type := {
  LEFT_SHOULDER : nat;
  LEFT_ELBOW : nat;
  LEFT_WRIST : nat;
  LEFT_HIP : nat;
  RIGHT_SHOULDER : nat;
  RIGHT_ELBOW : nat;
  RIGHT_WRIST : nat;
  RIGHT_HIP : nat;
  RIGHT_KNEE : nat;
  RIGHT_ANKLE : nat
}.

(** [TARGET_ANGLES] and [TOLERANCE] of [../data/challenges]. *)
Record Config : Type := {
  LANDMARK_INDICES : LandmarkIndices;
  TARGET_ELBOW : R;
  TARGET_SHOULDER : R;
  TARGET_KNEE_STRAIGHT : R;
  TOLERANCE_ELBOW : R;
  TOLERANCE_SHOULDER : R;
  TOLERANCE_KNEE : R;
  TOLERANCE_TILT : R;
  START_TOLERANCE : R
}.

Record Challenge : Type := {
  name : string;
  targetType : string;
  evalJoints : option (list string);
  message : string;
  score : R
}.

Record Canvas : Type := {
  width : nat;
  height : nat
}.

Inductive Side : Type :=
| LEFT
| RIGHT.

(** ** AngleCalculator *)

Definition calculateAngle (A M B : Point) : R :=
  let vectorMA_x := x A - x M in
  let vectorMA_y := y A - y M in
  let vectorMB_x := x B - x M in
  let vectorMB_y := y B - y M in
  let dotProduct := (vectorMA_x * vectorMB_x) + (vectorMA_y * vectorMB_y) in
  let magnitudeMA := sqrt (vectorMA_x ^ 2 + vectorMA_y ^ 2) in
  let magnitudeMB := sqrt (vectorMB_x ^ 2 + vectorMB_y ^ 2) in
  if bool_decide (magnitudeMA <> 0) && bool_decide (magnitudeMB <> 0) then
    let cosTheta := dotProduct / (magnitudeMA * magnitudeMB) in
    let cosTheta := Rmax (-1) (Rmin 1 cosTheta) in
    let angleRad := acos cosTheta in
    angleRad * (180 / PI)
  else 0.

(** ** PoseGate *)

Definition requiredLandmarks (L : LandmarkIndices) : list nat :=
  [LEFT_SHOULDER L; LEFT_ELBOW L; LEFT_WRIST L; LEFT_HIP L;
   RIGHT_SHOULDER L; RIGHT_ELBOW L; RIGHT_WRIST L; RIGHT_HIP L].

(** [!landmarks[index] || landmarks[index].visibility < 0.7]. *)
Definition missing_or_low (landmarks : Landmarks) (index : nat) : bool :=
  match at_index landmarks index with
  | None => true
  | Some p => bool_decide (visibility p < 0.7)
  end.

Definition isStartPoseAchieved (cfg : Config) (landmarks : option Landmarks)
  : result bool :=
  let L := LANDMARK_INDICES cfg in
  let tolerance := START_TOLERANCE cfg in
  match landmarks with
  | None => Ok false
  | Some landmarks =>
    if existsb (missing_or_low landmarks) (requiredLandmarks L) then Ok false
    else
      ls ← defined (at_index landmarks (LEFT_SHOULDER L));
      le ← defined (at_index landmarks (LEFT_ELBOW L));
      lw ← defined (at_index landmarks (LEFT_WRIST L));
      lh ← defined (at_index landmarks (LEFT_HIP L));
      let leftElbowAngle := calculateAngle ls le lw in
      let leftShoulderAngle := calculateAngle lh ls le in
      let isLeftArmReady :=
        bool_decide (Rabs (leftElbowAngle - TARGET_ELBOW cfg) <= tolerance) &&
        bool_decide (Rabs (leftShoulderAngle - TARGET_SHOULDER cfg) <= tolerance) in
      rs ← defined (at_index landmarks (RIGHT_SHOULDER L));
      re ← defined (at_index landmarks (RIGHT_ELBOW L));
      rw ← defined (at_index landmarks (RIGHT_WRIST L));
      rh ← defined (at_index landmarks (RIGHT_HIP L));
      let rightElbowAngle := calculateAngle rs re rw in
      let rightShoulderAngle := calculateAngle rh rs re in
      let isRightArmReady :=
        bool_decide (Rabs (rightElbowAngle - TARGET_ELBOW cfg) <= tolerance) &&
        bool_decide (Rabs (rightShoulderAngle - TARGET_SHOULDER cfg) <= tolerance) in
      Ok (isLeftArmReady && isRightArmReady)
  end.

(** ** ScoreEvaluator *)

(** [L[`${side}_SHOULDER`]] and its three siblings. *)
Definition side_SHOULDER (L : LandmarkIndices) (side : Side) : nat :=
  match side with LEFT => LEFT_SHOULDER L | RIGHT => RIGHT_SHOULDER L end.

Definition side_ELBOW (L : LandmarkIndices) (side : Side) : nat :=
  match side with LEFT => LEFT_ELBOW L | RIGHT => RIGHT_ELBOW L end.

Definition side_WRIST (L : LandmarkIndices) (side : Side) : nat :=
  match side with LEFT => LEFT_WRIST L | RIGHT => RIGHT_WRIST L end.

Definition side_HIP (L : LandmarkIndices) (side : Side) : nat :=
  match side with LEFT => LEFT_HIP L | RIGHT => RIGHT_HIP L end.

(** [challenge.evalJoints[0].includes('L') ? 'LEFT' : 'RIGHT']. *)
Definition arm_side (challenge : Challenge) : result Side :=
  joints ← defined (evalJoints challenge);
  joint ← defined (joints !! 0%nat);
  Ok (if includes joint "L" then LEFT else RIGHT).

(** [currentLandmarks[i].visibility < 0.7]. *)
Definition low_visibility (currentLandmarks : Landmarks) (i : nat) : result bool :=
  p ← defined (at_index currentLandmarks i);
  Ok (bool_decide (visibility p < 0.7)).

(** The sub-scores of an ARM challenge, before [Math.max(0, _)]. *)
Definition diffElbow (cfg : Config) (S E W : Point) : R :=
  Rabs (calculateAngle S E W - TARGET_ELBOW cfg).

Definition diffShoulder (cfg : Config) (H S E : Point) : R :=
  Rabs (calculateAngle H S E - TARGET_SHOULDER cfg).

Definition scoreElbow (cfg : Config) (S E W : Point) : R :=
  100 * (1 - (diffElbow cfg S E W / TOLERANCE_ELBOW cfg)).

Definition scoreShoulder (cfg : Config) (H S E : Point) : R :=
  100 * (1 - (diffShoulder cfg H S E / TOLERANCE_SHOULDER cfg)).

(** The sub-scores of a LEG_BALANCE challenge. *)
Definition diffKnee (cfg : Config) (R_H R_K R_A : Point) : R :=
  Rabs (calculateAngle R_H R_K R_A - TARGET_KNEE_STRAIGHT cfg).

Definition scoreKnee (cfg : Config) (R_H R_K R_A : Point) : R :=
  100 * (1 - (diffKnee cfg R_H R_K R_A / TOLERANCE_KNEE cfg)).

Definition tiltDiff (R_H R_K : Point) : R :=
  let angleRad := atan2 (x R_H - x R_K) (y R_H - y R_K) in
  let verticalAngle := Rabs (angleRad * (180 / PI)) in
  Rmin verticalAngle (Rabs (180 - verticalAngle)).

Definition scoreTilt (cfg : Config) (R_H R_K : Point) : R :=
  100 * (1 - (tiltDiff R_H R_K / TOLERANCE_TILT cfg)).

(** [canvasElement ? canvasElement.height : 480]. *)
Definition surface_height (canvasElement : option Canvas) : R :=
  match canvasElement with
  | Some c => INR (height c)
  | None => 480
  end.

Definition hipDeltaY (canvasElement : option Canvas) (R_H L_H : Point) : R :=
  Rabs (y R_H - y L_H) * surface_height canvasElement.

Definition hipBalanceScore (canvasElement : option Canvas) (R_H L_H : Point) : R :=
  Rmax 0 (100 * (1 - (hipDeltaY canvasElement R_H L_H / 20))).

(** The tail of [calculateMatchScore], from [if (jointCount === 0)]. *)
Definition mean_score (totalScore : R) (jointCount : nat) : R :=
  if bool_decide (jointCount = 0%nat) then 0
  else parseFloat_toFixed1 (totalScore / INR jointCount).

(** [calculateMatchScore], closed over the challenges and the challenge index
    of the render and over [canvasRef.current]. *)
Definition calculateMatchScore (cfg : Config) (challenges : list Challenge)
    (currentChallengeIndex : nat) (canvasElement : option Canvas)
    (currentLandmarks : Landmarks) : result R :=
  let L := LANDMARK_INDICES cfg in
  match challenges !! currentChallengeIndex with
  | None => Ok 0
  | Some challenge =>
    if bool_decide (targetType challenge = "ARM") then
      side ← arm_side challenge;
      let S := side_SHOULDER L side in
      let E := side_ELBOW L side in
      let W := side_WRIST L side in
      let H := side_HIP L side in
      low ← or_else (or_else (or_else (low_visibility currentLandmarks S)
                                      (low_visibility currentLandmarks E))
                             (low_visibility currentLandmarks W))
                    (low_visibility currentLandmarks H);
      if (low : bool) then Ok 0
      else
        pS ← defined (at_index currentLandmarks S);
        pE ← defined (at_index currentLandmarks E);
        pW ← defined (at_index currentLandmarks W);
        pH ← defined (at_index currentLandmarks H);
        let totalScore := 0 + Rmax 0 (scoreElbow cfg pS pE pW) in
        let totalScore := totalScore + Rmax 0 (scoreShoulder cfg pH pS pE) in
        Ok (mean_score totalScore 2)
    else if bool_decide (targetType challenge = "LEG_BALANCE") then
      let R_K := RIGHT_KNEE L in
      let R_A := RIGHT_ANKLE L in
      let R_H := RIGHT_HIP L in
      let L_H := LEFT_HIP L in
      low ← or_else (or_else (or_else (low_visibility currentLandmarks R_K)
                                      (low_visibility currentLandmarks R_A))
                             (low_visibility currentLandmarks R_H))
                    (low_visibility currentLandmarks L_H);
      if (low : bool) then Ok 0
      else
        pK ← defined (at_index currentLandmarks R_K);
        pA ← defined (at_index currentLandmarks R_A);
        pRH ← defined (at_index currentLandmarks R_H);
        pLH ← defined (at_index currentLandmarks L_H);
        let totalScore := 0 + Rmax 0 (scoreKnee cfg pRH pK pA) in
        let totalScore := totalScore + Rmax 0 (scoreTilt cfg pRH pK) in
        let totalScore := totalScore + hipBalanceScore canvasElement pRH pLH in
        Ok (mean_score totalScore 3)
    else Ok (mean_score 0 0)
  end.

(** ** Session state *)

(** [timerDisplay]: [null], a number of seconds, or ['GO!']. *)
Inductive TimerDisplay : Type :=
| TimerNull
| TimerSeconds (remaining : Z)
| TimerGo.

(** [currentScore]: the text next to the match label.  A number printed with
    [toFixed(1)] is kept as its count of tenths. *)
Inductive ScoreDisplay : Type :=
| ScoreDashes                      (* '--' *)
| ScoreLive (tenths : Z)           (* `${score.toFixed(1)} %` *)
| ScoreFinal (tenths : Z)          (* `${score.toFixed(1)} % (FINAL)` *)
| ScoreAverage (tenths : Z).       (* `${averageScore.toFixed(1)} % (average)` *)

(** [guideMessage]: one constructor per message template of the source. *)
Inductive GuideMessage : Type :=
| MsgCameraStarting
| MsgCameraReady
| MsgCameraError (errorName : string)
| MsgRaiseBothArms
| MsgPreparation (challengeMessage : string)
| MsgCountdown (remaining : Z)
| MsgHold (second : Z) (HOLD_SECONDS : Z)
| MsgPoseFixed
| MsgPerfect (challengeName : string)
| MsgAlmost (challengeName : string)
| MsgClose (challengeName : string)
| MsgAllDonePerfect (averageTenths : Z)
| MsgAllDoneRetry (averageTenths : Z).

Record ChallengeState : Type := {
  isPoseFixed : bool;
  isChallengeStarted : bool;
  isInPreparationPhase : bool;
  finalPoseLandmarks : option Landmarks;
  currentScore : ScoreDisplay;
  guideMessage : GuideMessage;
  timerDisplay : TimerDisplay;
  challenges : list Challenge;
  scoreColor : string
}.

(** The argument of [useState]; [CHALLENGES] comes from [../data/challenges]. *)
Definition initialChallengeState (CHALLENGES : list Challenge) : ChallengeState :=
  {| isPoseFixed := false;
     isChallengeStarted := false;
     isInPreparationPhase := false;
     finalPoseLandmarks := None;
     currentScore := ScoreDashes;
     guideMessage := MsgCameraStarting;
     timerDisplay := TimerNull;
     challenges := CHALLENGES;
     scoreColor := "#4CAF50" |}.

(** [results] of the detector; only [poseLandmarks] is read by the logic. *)
Record Results : Type := {
  poseLandmarks : option Landmarks
}.

(** ** Effects requested by a callback *)

(** The three timer callbacks, each with the render it closes over. *)
Inductive TimerCallback : Type :=
| PreparationDone (challengeState : ChallengeState)
| AdvanceChallenge (challengeState : ChallengeState) (currentChallengeIndex : nat)
| TimerTick (startTime : Z).

Inductive LogLine : Type :=
| LogHeader                                   (* "--- FINAL CHALLENGE RESULTS ---" *)
| LogScoreList (lines : list (string * Z))    (* `${c.name}: ${c.score.toFixed(1)}%\n` *)
| LogAverage (averageTenths : Z).             (* `Average Score: ${...}%` *)

Inductive Effect : Type :=
| SetChallengeState (updater : ChallengeState -> result ChallengeState)
| SetCurrentChallengeIndex (newIndex : nat)
| SetTimeout (callback : TimerCallback) (delay : Z)
| SetInterval (callback : TimerCallback) (delay : Z)
| ClearInterval
| ConsoleLog (line : LogLine)
| DrawPose (drawingLandmarks : Landmarks) (lineColor dotColor : string)
| PoseSend.

(** A callback run: the effects requested so far and how the run ended. *)
Record Handler (A : Type) : Type := {
  effects : list Effect;
  outcome : result A
}.

Arguments effects {A} h.
Arguments outcome {A} h.

#[global] Instance handler_ret : MRet Handler := fun A a =>
  {| effects := []; outcome := Ok a |}.

#[global] Instance handler_bind : MBind Handler := fun A B f m =>
  match outcome m with
  | Ok a => {| effects := effects m ++ effects (f a); outcome := outcome (f a) |}
  | Throw e => {| effects := effects m; outcome := Throw e |}
  end.

Definition emit (e : Effect) : Handler unit :=
  {| effects := [e]; outcome := Ok tt |}.

Definition lift {A : Type} (r : result A) : Handler A :=
  {| effects := []; outcome := r |}.

Definition skip : Handler unit := mret tt.

(** React applies the queued updaters in order to the committed state. *)
Fixpoint commit (es : list Effect) (st : ChallengeState) : result ChallengeState :=
  match es with
  | [] => Ok st
  | SetChallengeState updater :: es' => st' ← updater st; commit es' st'
  | _ :: es' => commit es' st
  end.

(** ** ResultAggregator *)

(** The accumulation done by the [forEach] of [showFinalResults]. *)
Definition totalScore_of (cs : list Challenge) : R :=
  fold_left (fun totalScore c => totalScore + score c) cs 0.

Definition scoreList_of (cs : list Challenge) : list (string * Z) :=
  fold_left (fun scoreList c => scoreList ++ [(name c, toFixed1 (score c))]) cs [].

Definition averageScore_of (cs : list Challenge) : R :=
  totalScore_of cs / INR (length cs).

Definition final_updater (averageScore : R) (prev : ChallengeState)
  : result ChallengeState :=
  let '(message, color) :=
    if bool_decide (averageScore > 90)
    then (MsgAllDonePerfect (toFixed1 averageScore), "#4CAF50")
    else (MsgAllDoneRetry (toFixed1 averageScore), "#FFC107") in
  Ok {| isPoseFixed := isPoseFixed prev;
        isChallengeStarted := isChallengeStarted prev;
        isInPreparationPhase := isInPreparationPhase prev;
        finalPoseLandmarks := finalPoseLandmarks prev;
        currentScore := ScoreAverage (toFixed1 averageScore);
        guideMessage := message;
        timerDisplay := timerDisplay prev;
        challenges := challenges prev;
        scoreColor := color |}.

Definition showFinalResults (challengeState : ChallengeState) : Handler unit :=
  let averageScore := averageScore_of (challenges challengeState) in
  _ ← emit (SetChallengeState (final_updater averageScore));
  _ ← emit (ConsoleLog LogHeader);
  _ ← emit (ConsoleLog (LogScoreList (scoreList_of (challenges challengeState))));
  emit (ConsoleLog (LogAverage (toFixed1 averageScore))).

(** ** ChallengeSessionFSM *)

Definition reset_updater (prev : ChallengeState) : result ChallengeState :=
  Ok {| isPoseFixed := false;
        isChallengeStarted := false;
        isInPreparationPhase := false;
        finalPoseLandmarks := None;
        currentScore := ScoreDashes;
        guideMessage := MsgRaiseBothArms;
        timerDisplay := TimerNull;
        challenges := challenges prev;
        scoreColor := "#4CAF50" |}.

Definition resetChallenge (challengeState : ChallengeState)
    (currentChallengeIndex : nat) (nextStage : bool) : Handler unit :=
  let newIndex := currentChallengeIndex in
  let newIndex := if nextStage then (newIndex + 1)%nat else newIndex in
  if bool_decide (newIndex < length (challenges challengeState))%nat then
    _ ← emit (SetChallengeState reset_updater);
    emit (SetCurrentChallengeIndex newIndex)
  else showFinalResults challengeState.

Definition COUNTDOWN_SECONDS : Z := 3.
Definition HOLD_SECONDS : Z := 5.

Definition started_updater (prev : ChallengeState) : result ChallengeState :=
  Ok {| isPoseFixed := isPoseFixed prev;
        isChallengeStarted := true;
        isInPreparationPhase := isInPreparationPhase prev;
        finalPoseLandmarks := finalPoseLandmarks prev;
        currentScore := currentScore prev;
        guideMessage := guideMessage prev;
        timerDisplay := timerDisplay prev;
        challenges := challenges prev;
        scoreColor := scoreColor prev |}.

Definition timer_updater (fixed : bool) (display : TimerDisplay)
    (msg : GuideMessage) (prev : ChallengeState) : result ChallengeState :=
  Ok {| isPoseFixed := if fixed then true else isPoseFixed prev;
        isChallengeStarted := isChallengeStarted prev;
        isInPreparationPhase := isInPreparationPhase prev;
        finalPoseLandmarks := finalPoseLandmarks prev;
        currentScore := currentScore prev;
        guideMessage := msg;
        timerDisplay := display;
        challenges := challenges prev;
        scoreColor := scoreColor prev |}.

(** The body of the [setInterval] callback; [now] is [Date.now()]. *)
Definition timerTick (startTime now : Z) : Handler unit :=
  let elapsed := ((now - startTime) / 1000)%Z in
  if bool_decide (elapsed < COUNTDOWN_SECONDS)%Z then
    let remaining := (COUNTDOWN_SECONDS - elapsed)%Z in
    emit (SetChallengeState
            (timer_updater false (TimerSeconds remaining) (MsgCountdown remaining)))
  else if bool_decide (elapsed < COUNTDOWN_SECONDS + HOLD_SECONDS)%Z then
    let holdTime := (elapsed - COUNTDOWN_SECONDS)%Z in
    emit (SetChallengeState
            (timer_updater false TimerGo (MsgHold (holdTime + 1) HOLD_SECONDS)))
  else
    _ ← emit ClearInterval;
    emit (SetChallengeState (timer_updater true TimerNull MsgPoseFixed)).

(** [startChallengeTimer]; [now] is the [Date.now()] stored in [startTime]. *)
Definition startChallengeTimer (challengeState : ChallengeState) (now : Z)
  : Handler unit :=
  if isChallengeStarted challengeState then skip
  else
    _ ← emit (SetChallengeState started_updater);
    let startTime := now in
    emit (SetInterval (TimerTick startTime) 1000).

Definition preparation_updater (challengeState : ChallengeState)
    (currentChallengeIndex : nat) (prev : ChallengeState) : result ChallengeState :=
  currentChallenge ← defined (challenges challengeState !! currentChallengeIndex);
  Ok {| isPoseFixed := isPoseFixed prev;
        isChallengeStarted := isChallengeStarted prev;
        isInPreparationPhase := true;
        finalPoseLandmarks := finalPoseLandmarks prev;
        currentScore := currentScore prev;
        guideMessage := MsgPreparation (message currentChallenge);
        timerDisplay := timerDisplay prev;
        challenges := challenges prev;
        scoreColor := scoreColor prev |}.

Definition preparation_over_updater (prev : ChallengeState) : result ChallengeState :=
  Ok {| isPoseFixed := isPoseFixed prev;
        isChallengeStarted := isChallengeStarted prev;
        isInPreparationPhase := false;
        finalPoseLandmarks := finalPoseLandmarks prev;
        currentScore := currentScore prev;
        guideMessage := guideMessage prev;
        timerDisplay := timerDisplay prev;
        challenges := challenges prev;
        scoreColor := scoreColor prev |}.

Definition startPreparationPhase (challengeState : ChallengeState)
    (currentChallengeIndex : nat) : Handler unit :=
  if isChallengeStarted challengeState || isInPreparationPhase challengeState
  then skip
  else
    _ ← emit (SetChallengeState
                (preparation_updater challengeState currentChallengeIndex));
    emit (SetTimeout (PreparationDone challengeState) 1500).

(** What a timer callback does when it fires at time [now]. *)
Definition run_callback (callback : TimerCallback) (now : Z) : Handler unit :=
  match callback with
  | PreparationDone challengeState =>
      _ ← emit (SetChallengeState preparation_over_updater);
      startChallengeTimer challengeState now
  | AdvanceChallenge challengeState currentChallengeIndex =>
      resetChallenge challengeState currentChallengeIndex true
  | TimerTick startTime => timerTick startTime now
  end.

(** The updater of step 2 of [onResults]: the challenge object at the
    current index receives the score, the snapshot is stored.  The
    assignment [updatedChallenges[currentChallengeIndex].score = score]
    writes into the object shared by the arrays of all renders; in the
    result the objects as they are after the assignment are the
    [challenges], and a callback of an earlier render sees them through
    [objects_now]. *)
Definition finalize_updater (currentChallengeIndex : nat)
    (finalLandmarks : Landmarks) (s : R) (prev : ChallengeState)
  : result ChallengeState :=
  c ← defined (challenges prev !! currentChallengeIndex);
  let updatedChallenges :=
    <[currentChallengeIndex :=
        {| name := name c; targetType := targetType c;
           evalJoints := evalJoints c; message := message c;
           score := s |}]> (challenges prev) in
  let '(msg, color) :=
    if bool_decide (s > 90) then (MsgPerfect (name c), "#4CAF50")
    else if bool_decide (s > 70) then (MsgAlmost (name c), "#FFC107")
    else (MsgClose (name c), "#F44336") in
  Ok {| isPoseFixed := isPoseFixed prev;
        isChallengeStarted := isChallengeStarted prev;
        isInPreparationPhase := isInPreparationPhase prev;
        finalPoseLandmarks := Some finalLandmarks;
        currentScore := ScoreFinal (toFixed1 s);
        guideMessage := msg;
        timerDisplay := timerDisplay prev;
        challenges := updatedChallenges;
        scoreColor := color |}.

(** The updater of the real-time score of step 3 of [onResults]. *)
Definition live_updater (s : R) (prev : ChallengeState) : result ChallengeState :=
  let color :=
    if bool_decide (s > 80) then "#4CAF50"
    else if bool_decide (s > 50) then "#FFA500"
    else "#F44336" in
  Ok {| isPoseFixed := isPoseFixed prev;
        isChallengeStarted := isChallengeStarted prev;
        isInPreparationPhase := isInPreparationPhase prev;
        finalPoseLandmarks := finalPoseLandmarks prev;
        currentScore := ScoreLive (toFixed1 s);
        guideMessage := guideMessage prev;
        timerDisplay := timerDisplay prev;
        challenges := challenges prev;
        scoreColor := color |}.

(** Step 1 of [onResults]: the start check. *)
Definition startCheck (cfg : Config) (challengeState : ChallengeState)
    (currentChallengeIndex : nat) (landmarks : Landmarks) : Handler unit :=
  start ←
    (if negb (isChallengeStarted challengeState)
        && negb (isInPreparationPhase challengeState)
        && bool_decide (currentChallengeIndex
                        < length (challenges challengeState))%nat
     then lift (isStartPoseAchieved cfg (Some landmarks))
     else mret false);
  if (start : bool)
  then startPreparationPhase challengeState currentChallengeIndex
  else skip.

(** Step 2 of [onResults]: the moment the pose is fixed.  The snapshot is
    the [JSON] copy of the landmarks, equal to them. *)
Definition fixPose (cfg : Config) (challengeState : ChallengeState)
    (currentChallengeIndex : nat) (canvasElement : option Canvas)
    (landmarks : Landmarks) : Handler unit :=
  if isPoseFixed challengeState
     && negb (bool_decide (is_Some (finalPoseLandmarks challengeState)))
  then
    let finalLandmarks := landmarks in
    s ← lift (calculateMatchScore cfg (challenges challengeState)
                currentChallengeIndex canvasElement finalLandmarks);
    _ ← emit (SetChallengeState
                (finalize_updater currentChallengeIndex finalLandmarks s));
    emit (SetTimeout
            (AdvanceChallenge challengeState currentChallengeIndex) 1000)
  else skip.

(** Step 3 of [onResults]: the overlay and the real-time score. *)
Definition drawAndLiveScore (cfg : Config) (challengeState : ChallengeState)
    (currentChallengeIndex : nat) (canvasElement : option Canvas)
    (drawingUtils : bool) (landmarks : Landmarks) : Handler unit :=
  let drawingLandmarks :=
    default landmarks (finalPoseLandmarks challengeState) in
  let isFixed := isPoseFixed challengeState in
  let lineColor := if isFixed then "#FFD700" else "#00FF00" in
  let dotColor := if isFixed then "#FFA500" else "#FF0000" in
  _ ← (if drawingUtils
       then emit (DrawPose drawingLandmarks lineColor dotColor)
       else skip);
  if negb (bool_decide (is_Some (finalPoseLandmarks challengeState)))
     && isChallengeStarted challengeState
  then
    s ← lift (calculateMatchScore cfg (challenges challengeState)
                currentChallengeIndex canvasElement landmarks);
    emit (SetChallengeState (live_updater s))
  else skip.

(** [onResults] of the render with state [challengeState] and index
    [currentChallengeIndex]; [canvasElement] is [canvasRef.current] and
    [drawingUtils] tells whether [window.drawConnectors] and
    [window.drawLandmarks] are present.  Painting the camera image is left
    out; the pose overlay is the [DrawPose] effect. *)
Definition onResults (cfg : Config) (challengeState : ChallengeState)
    (currentChallengeIndex : nat) (canvasElement : option Canvas)
    (drawingUtils : bool) (results : Results) : Handler unit :=
  match canvasElement with
  | None => skip
  | Some _ =>
    match poseLandmarks results with
    | None => skip
    | Some landmarks =>
      _ ← startCheck cfg challengeState currentChallengeIndex landmarks;
      _ ← fixPose cfg challengeState currentChallengeIndex canvasElement
            landmarks;
      drawAndLiveScore cfg challengeState currentChallengeIndex canvasElement
        drawingUtils landmarks
    end
  end.

(** [onFrame] of the camera; [poseReady] is the truth value of
    [poseRef.current]. *)
Definition onFrame (challengeState : ChallengeState) (poseReady : bool)
  : Handler unit :=
  if negb (isPoseFixed challengeState) && poseReady then emit PoseSend else skip.

(** The challenge objects seen by a callback of the render [closure] that
    runs while the committed state is [st]: the array is the closure's, the
    object at each index is the shared one, whose current content is in
    [st]. *)
Definition objects_now (closure st : ChallengeState) : ChallengeState :=
  {| isPoseFixed := isPoseFixed closure;
     isChallengeStarted := isChallengeStarted closure;
     isInPreparationPhase := isInPreparationPhase closure;
     finalPoseLandmarks := finalPoseLandmarks closure;
     currentScore := currentScore closure;
     guideMessage := guideMessage closure;
     timerDisplay := timerDisplay closure;
     challenges :=
       imap (fun i c => default c (challenges st !! i)) (challenges closure);
     scoreColor := scoreColor closure |}.

Definition callback_now (callback : TimerCallback) (st : ChallengeState)
  : TimerCallback :=
  match callback with
  | PreparationDone closure => PreparationDone (objects_now closure st)
  | AdvanceChallenge closure currentChallengeIndex =>
      AdvanceChallenge (objects_now closure st) currentChallengeIndex
  | TimerTick startTime => TimerTick startTime
  end.

(** One detector result.  The detector calls the listener it holds, the
    [onResults] of the render with state [listener] and index
    [listenerIndex]; the updaters it queues are applied to the committed
    state [st].  [onResults] and the functions it calls read of the
    challenge objects only [targetType], [evalJoints], [name] and [message],
    which are never assigned, so the closure's own list is what they see. *)
Definition deliver_frame (cfg : Config) (listener : ChallengeState)
    (listenerIndex : nat) (canvasElement : option Canvas) (drawingUtils : bool)
    (st : ChallengeState) (results : Results) : result ChallengeState :=
  commit (effects (onResults cfg listener listenerIndex canvasElement
                     drawingUtils results)) st.

(** The listener of the component: [poseRef.current.onResults(onResults)]
    runs in the first pass of the effect only, with the [onResults] of the
    first render, whose state is the argument of [useState] and whose index
    is 0. *)
Definition component_frame (cfg : Config) (CHALLENGES : list Challenge)
    (canvasElement : option Canvas) (drawingUtils : bool)
    (st : ChallengeState) (results : Results) : result ChallengeState :=
  deliver_frame cfg (initialChallengeState CHALLENGES) 0 canvasElement
    drawingUtils st results.

(** A run of frames of the component. *)
Fixpoint component_frames (cfg : Config) (CHALLENGES : list Challenge)
    (canvasElement : option Canvas) (drawingUtils : bool)
    (st : ChallengeState) (frames : list Results) : result ChallengeState :=
  match frames with
  | [] => Ok st
  | results :: frames' =>
      st' ← component_frame cfg CHALLENGES canvasElement drawingUtils st results;
      component_frames cfg CHALLENGES canvasElement drawingUtils st' frames'
  end.

(** One tick of the interval started at [startTime], firing at [now]. *)
Definition process_tick (startTime now : Z) (st : ChallengeState)
  : result ChallengeState :=
  commit (effects (timerTick startTime now)) st.

(** ** Example data

    Values used to run the definitions on concrete inputs.  The landmark
    indices are those of the MediaPipe pose model; the angles and
    tolerances are example values, the real ones live in
    [../data/challenges]. *)

Definition mediapipe_indices : LandmarkIndices :=
  {| LEFT_SHOULDER := 11; RIGHT_SHOULDER := 12;
     LEFT_ELBOW := 13; RIGHT_ELBOW := 14;
     LEFT_WRIST := 15; RIGHT_WRIST := 16;
     LEFT_HIP := 23; RIGHT_HIP := 24;
     RIGHT_KNEE := 26; RIGHT_ANKLE := 28 |}.

Definition example_config : Config :=
  {| LANDMARK_INDICES := mediapipe_indices;
     TARGET_ELBOW := 180;
     TARGET_SHOULDER := 180;
     TARGET_KNEE_STRAIGHT := 180;
     TOLERANCE_ELBOW := 30;
     TOLERANCE_SHOULDER := 30;
     TOLERANCE_KNEE := 20;
     TOLERANCE_TILT := 15;
     START_TOLERANCE := 25 |}.

Definition point (px py v : R) : Point :=
  {| x := px; y := py; z := None; visibility := v |}.

(** Both arms raised straight above the shoulders; [vL] and [vR] are the
    visibilities of the left and of the right arm and hip, every other
    landmark is fully visible. *)
Definition arms_up_point (vL vR : R) (i : nat) : Point :=
  match i with
  | 11 => point (3/5) (1/2) vL      (* left shoulder *)
  | 13 => point (3/5) (1/4) vL      (* left elbow *)
  | 15 => point (3/5) 0 vL          (* left wrist *)
  | 23 => point (3/5) (3/4) vL      (* left hip *)
  | 12 => point (2/5) (1/2) vR      (* right shoulder *)
  | 14 => point (2/5) (1/4) vR      (* right elbow *)
  | 16 => point (2/5) 0 vR          (* right wrist *)
  | 24 => point (2/5) (3/4) vR      (* right hip *)
  | _ => point (1/2) (1/2) 1
  end%nat.

Definition arms_up (vL vR : R) : Landmarks :=
  (fun i => Some (arms_up_point vL vR i)) <$> seq 0 33.

Definition arm_challenge (joints : option (list string)) : Challenge :=
  {| name := "arm"; targetType := "ARM"; evalJoints := joints;
     message := "raise the arm"; score := 0 |}.

Definition scored (n : string) (s : R) : Challenge :=
  {| name := n; targetType := "ARM"; evalJoints := Some ["LEFT_ELBOW"];
     message := n; score := s |}.

Definition canvas_480 : Canvas := {| width := 640; height := 480 |}.

Definition three_scores : list Challenge :=
  [scored "first" 100; scored "second" 80; scored "third" 60].

(** A session in the Fixed phase of its only challenge. *)
Definition fixed_state : ChallengeState :=
  {| isPoseFixed := true;
     isChallengeStarted := true;
     isInPreparationPhase := false;
     finalPoseLandmarks := None;
     currentScore := ScoreLive 1000;
     guideMessage := MsgPoseFixed;
     timerDisplay := TimerNull;
     challenges := [arm_challenge (Some ["LEFT_WRIST"])];
     scoreColor := "#4CAF50" |}.

(** A session whose challenge timer has just been started. *)
Definition started_state : ChallengeState :=
  {| isPoseFixed := false;
     isChallengeStarted := true;
     isInPreparationPhase := false;
     finalPoseLandmarks := None;
     currentScore := ScoreDashes;
     guideMessage := MsgRaiseBothArms;
     timerDisplay := TimerNull;
     challenges := [arm_challenge (Some ["LEFT_WRIST"])];
     scoreColor := "#4CAF50" |}.

(** ** Vocabulary of the statements *)

(** The two arm conditions checked once all eight landmarks are visible. *)
Definition arm_within_start_tolerance (cfg : Config) (S E W H : Point) : Prop :=
  Rabs (calculateAngle S E W - TARGET_ELBOW cfg) <= START_TOLERANCE cfg /\
  Rabs (calculateAngle H S E - TARGET_SHOULDER cfg) <= START_TOLERANCE cfg.

(** What the spec asks of a sub-score [sub] computed from a deviation [dev]
    and a tolerance [tol]. *)
Definition linear_decay (dev tol sub : R) : Prop :=
  0 <= sub <= 100 /\
  (sub = 100 <-> dev = 0) /\
  (dev <= tol -> sub = 100 - (100 / tol) * dev) /\
  (sub = 0 <-> tol <= dev).

(** The unweighted means of the floored sub-scores of the two challenge types. *)
Definition arm_mean (cfg : Config) (pS pE pW pH : Point) : R :=
  (Rmax 0 (scoreElbow cfg pS pE pW) + Rmax 0 (scoreShoulder cfg pH pS pE)) / 2.

Definition leg_mean (cfg : Config) (canvasElement : option Canvas)
    (pK pA pRH pLH : Point) : R :=
  (Rmax 0 (scoreKnee cfg pRH pK pA) + Rmax 0 (scoreTilt cfg pRH pK)
   + hipBalanceScore canvasElement pRH pLH) / 3.

(** The arithmetic mean of the final scores and the lines of the report. *)
Definition sum_scores (cs : list Challenge) : R :=
  foldr (fun c acc => score c + acc) 0 cs.

Definition mean_of_scores (cs : list Challenge) : R :=
  sum_scores cs / INR (length cs).

Definition report_lines (cs : list Challenge) : list (string * Z) :=
  (fun c => (name c, toFixed1 (score c))) <$> cs.

(** [st'] has the challenges, hence the scores, and the frozen skeleton of [st]. *)
Definition same_frozen (st st' : ChallengeState) : Prop :=
  challenges st' = challenges st /\
  finalPoseLandmarks st' = finalPoseLandmarks st.

(** Every landmark index [calculateMatchScore] can read. *)
Definition evaluatedLandmarks (L : LandmarkIndices) : list nat :=
  requiredLandmarks L ++ [RIGHT_KNEE L; RIGHT_ANKLE L].

(** A skeleton that stops after the left shoulder, which is barely visible. *)
Definition shoulder_only : Landmarks :=
  replicate 12 (Some (point (1/2) (1/2) (1/10))).

Definition leg_challenge : Challenge :=
  {| name := "balance"; targetType := "LEG_BALANCE"; evalJoints := None;
     message := "stand on the right leg"; score := 0 |}.

(** A timer callback firing at [now] while the committed state is [st],
    followed by the commit of its updaters. *)
Definition process_callback (callback : TimerCallback) (now : Z)
    (st : ChallengeState) : result ChallengeState :=
  commit (effects (run_callback (callback_now callback st) now)) st.

(** A run of ticks of the interval started at [startTime]. *)
Fixpoint process_ticks (startTime : Z) (st : ChallengeState) (nows : list Z)
  : result ChallengeState :=
  match nows with
  | [] => Ok st
  | now :: nows' => st' ← process_tick startTime now st;
                    process_ticks startTime st' nows'
  end.

(** The overlay queued by a frame when the drawing helpers are loaded. *)
Definition overlay (drawingUtils : bool) (drawingLandmarks : Landmarks)
    (isFixed : bool) : list Effect :=
  if drawingUtils
  then [DrawPose drawingLandmarks
          (if isFixed then "#FFD700" else "#00FF00")
          (if isFixed then "#FFA500" else "#FF0000")]
  else [].

(** Two challenge objects that differ at most by their score. *)
Definition same_challenge_data (c c' : Challenge) : Prop :=
  name c' = name c /\ targetType c' = targetType c /\
  evalJoints c' = evalJoints c /\ message c' = message c.

(** A session waiting for the start pose on its only challenge. *)
Definition idle_state : ChallengeState :=
  {| isPoseFixed := false;
     isChallengeStarted := false;
     isInPreparationPhase := false;
     finalPoseLandmarks := None;
     currentScore := ScoreDashes;
     guideMessage := MsgRaiseBothArms;
     timerDisplay := TimerNull;
     challenges := [arm_challenge (Some ["LEFT_WRIST"])];
     scoreColor := "#4CAF50" |}.

(** What a frame handled at challenge [idx] may change in the state: nothing
    of the timer flags and, among the challenges, only the score at [idx]. *)
Definition frame_step (idx : nat) (st st' : ChallengeState) : Prop :=
  isPoseFixed st' = isPoseFixed st /\
  isChallengeStarted st' = isChallengeStarted st /\
  timerDisplay st' = timerDisplay st /\
  length (challenges st') = length (challenges st) /\
  forall j c, challenges st !! j = Some c ->
    exists c', challenges st' !! j = Some c' /\
               same_challenge_data c c' /\ (j <> idx -> c' = c).

(** The updaters a frame can queue when [onResults] is that of the render
    with state [listener] and index [idx]. *)
Definition frame_effect (cfg : Config) (listener : ChallengeState) (idx : nat)
    (canvasElement : option Canvas) (landmarks : Landmarks) (e : Effect) : Prop :=
  match e with
  | SetChallengeState updater =>
      updater = preparation_updater listener idx \/
      exists s,
        calculateMatchScore cfg (challenges listener) idx canvasElement landmarks
          = Ok s /\
        (updater = finalize_updater idx landmarks s \/ updater = live_updater s)
  | _ => True
  end.

(** What reaches the component: a detector result, with the canvas and the
    drawing helpers of the moment, or a timer callback firing at some time. *)
Inductive Event : Type :=
| FrameEvent (canvasElement : option Canvas) (drawingUtils : bool)
    (results : Results)
| TimerEvent (callback : TimerCallback) (now : Z).

(** An event handled while the committed state is [st]; frames go to the
    listener the detector holds. *)
Definition handle_event (cfg : Config) (listener : ChallengeState)
    (listenerIndex : nat) (st : ChallengeState) (ev : Event)
  : result ChallengeState :=
  match ev with
  | FrameEvent canvasElement drawingUtils results =>
      deliver_frame cfg listener listenerIndex canvasElement drawingUtils st
        results
  | TimerEvent callback now => process_callback callback now st
  end.

Fixpoint handle_events (cfg : Config) (listener : ChallengeState)
    (listenerIndex : nat) (st : ChallengeState) (evs : list Event)
  : result ChallengeState :=
  match evs with
  | [] => Ok st
  | ev :: evs' => st' ← handle_event cfg listener listenerIndex st ev;
                  handle_events cfg listener listenerIndex st' evs'
  end.

(** The session of the component started on [CHALLENGES]. *)
Definition component_events (cfg : Config) (CHALLENGES : list Challenge)
    (st : ChallengeState) (evs : list Event) : result ChallengeState :=
  handle_events cfg (initialChallengeState CHALLENGES) 0 st evs.

(** Whether the start check of step 1 can succeed on a detector result: a
    skeleton is there and the gate accepts it. *)
Definition accepted_frame (cfg : Config) (results : Results) : bool :=
  match poseLandmarks results with
  | Some landmarks =>
      match isStartPoseAchieved cfg (Some landmarks) with
      | Ok accepted => accepted
      | Throw _ => false
      end
  | None => false
  end.

(** [st] once the preparation phase is entered with the challenge message
    [m]: [{...prev, isInPreparationPhase: true, guideMessage: ...}]. *)
Definition entered_preparation (m : string) (st : ChallengeState)
  : ChallengeState :=
  {| isPoseFixed := isPoseFixed st;
     isChallengeStarted := isChallengeStarted st;
     isInPreparationPhase := true;
     finalPoseLandmarks := finalPoseLandmarks st;
     currentScore := currentScore st;
     guideMessage := MsgPreparation m;
     timerDisplay := timerDisplay st;
     challenges := challenges st;
     scoreColor := scoreColor st |}.

(** The [setTimeout] calls among the effects of a run, in order. *)
Definition timeouts_of (es : list Effect) : list (TimerCallback * Z) :=
  omap (fun e => match e with
                 | SetTimeout callback delay => Some (callback, delay)
                 | _ => None
                 end) es.

(** The [setTimeout] of step 2 of [onResults], which advances the session. *)
Definition is_advance (e : Effect) : bool :=
  match e with
  | SetTimeout (AdvanceChallenge _ _) _ => true
  | _ => false
  end.

(** The effects queued by the component's listener over a run of frames. *)
Definition queued_by_frames (cfg : Config) (CHALLENGES : list Challenge)
    (canvasElement : option Canvas) (drawingUtils : bool)
    (frames : list Results) : list Effect :=
  flat_map (fun results =>
              effects (onResults cfg (initialChallengeState CHALLENGES) 0
                         canvasElement drawingUtils results)) frames.

(** * Properties *)

(** ** Deciding comparisons *)

Lemma bool_decide_true (P : Prop) `{Decision P} : P -> bool_decide P = true.
Proof. intros HP. apply bool_decide_eq_true. exact HP. Qed.

Lemma bool_decide_false (P : Prop) `{Decision P} : ~ P -> bool_decide P = false.
Proof. intros HP. apply bool_decide_eq_false. exact HP. Qed.

(** ** AngleCalculator *)

Lemma magnitude_zero (a b : R) : a = 0 -> b = 0 -> sqrt (a ^ 2 + b ^ 2) = 0.
Proof.
  intros -> ->. replace (0 ^ 2 + 0 ^ 2) with 0 by ring. apply sqrt_0.
Qed.

Lemma degrees_range (c : R) : 0 <= acos c * (180 / PI) <= 180.
Proof.
  pose proof (acos_bound c) as [Hlo Hhi].
  pose proof PI_RGT_0 as Hpi.
  assert (Hinv : 0 < / PI) by (apply Rinv_0_lt_compat; lra).
  split.
  - apply Rmult_le_pos; [exact Hlo|]. unfold Rdiv. nra.
  - replace 180 with (PI * (180 / PI)) at 2 by (field; lra).
    apply Rmult_le_compat_r; [unfold Rdiv; nra | exact Hhi].
Qed.

Lemma calculateAngle_comm (A M B : Point) :
  calculateAngle A M B = calculateAngle B M A.
Proof.
  unfold calculateAngle; cbv zeta.
  rewrite (andb_comm (bool_decide (sqrt ((x A - x M) ^ 2 + (y A - y M) ^ 2) <> 0))).
  rewrite (Rmult_comm (x A - x M) (x B - x M)).
  rewrite (Rmult_comm (y A - y M) (y B - y M)).
  rewrite (Rmult_comm (sqrt ((x A - x M) ^ 2 + (y A - y M) ^ 2))).
  reflexivity.
Qed.

Lemma calculateAngle_degenerate_l (A M B : Point) :
  x A = x M -> y A = y M -> calculateAngle A M B = 0.
Proof.
  intros Hx Hy. unfold calculateAngle; cbv zeta.
  rewrite (magnitude_zero (x A - x M) (y A - y M)) by lra.
  rewrite (bool_decide_false (0 <> 0)) by (intros Hne; apply Hne; reflexivity).
  reflexivity.
Qed.

Lemma calculateAngle_range (A M B : Point) : 0 <= calculateAngle A M B <= 180.
Proof.
  unfold calculateAngle; cbv zeta.
  destruct (_ && _); [apply degrees_range | lra].
Qed.

Lemma magnitude_nonzero (a b : R) :
  a <> 0 \/ b <> 0 -> sqrt (a ^ 2 + b ^ 2) <> 0.
Proof.
  intros Hab Hz. apply sqrt_eq_0 in Hz; [|nra].
  assert (a = 0 /\ b = 0) as [Ha Hb] by (split; nra).
  destruct Hab as [Hne | Hne]; apply Hne; assumption.
Qed.

Lemma clamped_cosine_range (c : R) : -1 <= Rmax (-1) (Rmin 1 c) <= 1.
Proof.
  split; [apply Rmax_l|].
  apply Rmax_lub; [lra | apply Rmin_l].
Qed.

(** Away from the degenerate case the result is the arccosine, in degrees,
    of a cosine that has been clamped to [-1,1]. *)
Lemma calculateAngle_nondegenerate (A M B : Point) :
  x A <> x M \/ y A <> y M -> x B <> x M \/ y B <> y M ->
  exists c, -1 <= c <= 1 /\ calculateAngle A M B = acos c * (180 / PI).
Proof.
  intros HA HB. unfold calculateAngle; cbv zeta.
  rewrite (bool_decide_true (sqrt ((x A - x M) ^ 2 + (y A - y M) ^ 2) <> 0))
    by (apply magnitude_nonzero; destruct HA; [left | right]; lra).
  rewrite (bool_decide_true (sqrt ((x B - x M) ^ 2 + (y B - y M) ^ 2) <> 0))
    by (apply magnitude_nonzero; destruct HB; [left | right]; lra).
  simpl andb. cbv iota.
  eexists. split; [apply clamped_cosine_range | reflexivity].
Qed.

(** C7. The angle at [M] does not change when [A] and [B] are swapped; it is
    the sentinel 0 as soon as one of the two rays has zero length, that is
    when [A] or [B] has the planar coordinates of [M]; when neither ray is
    degenerate it is the arccosine of a cosine clamped to [-1,1], turned
    into degrees; and in every case it lies between 0 and 180 degrees. *)
Theorem calculateAngle_symmetric_sentinel_range (A M B : Point) :
  calculateAngle A M B = calculateAngle B M A /\
  ((x A = x M /\ y A = y M) \/ (x B = x M /\ y B = y M) ->
   calculateAngle A M B = 0) /\
  (x A <> x M \/ y A <> y M -> x B <> x M \/ y B <> y M ->
   exists c, -1 <= c <= 1 /\ calculateAngle A M B = acos c * (180 / PI)) /\
  0 <= calculateAngle A M B <= 180.
Proof.
  split; [apply calculateAngle_comm|].
  split; [|split; [apply calculateAngle_nondegenerate | apply calculateAngle_range]].
  intros [[Hx Hy] | [Hx Hy]].
  - apply calculateAngle_degenerate_l; assumption.
  - rewrite calculateAngle_comm. apply calculateAngle_degenerate_l; assumption.
Qed.

Lemma calculateAngle_symmetric_sentinel_range_witness :
  calculateAngle (point 1 2 1) (point 1 2 0) (point 3 4 1) = 0 /\
  exists c, -1 <= c <= 1 /\
    calculateAngle (point 0 1 1) (point 0 0 1) (point 1 0 1) = acos c * (180 / PI).
Proof.
  split.
  - apply (calculateAngle_symmetric_sentinel_range
             (point 1 2 1) (point 1 2 0) (point 3 4 1)).
    left. split; reflexivity.
  - apply (calculateAngle_symmetric_sentinel_range
             (point 0 1 1) (point 0 0 1) (point 1 0 1)).
    + right. simpl. lra.
    + left. simpl. lra.
Defined.

(** ** PoseGate *)

Lemma missing_or_low_false (landmarks : Landmarks) (i : nat) :
  missing_or_low landmarks i = false ->
  exists p, at_index landmarks i = Some p /\ 0.7 <= visibility p.
Proof.
  unfold missing_or_low. destruct (at_index landmarks i) as [p|]; [|discriminate].
  intros Hvis. exists p. split; [reflexivity|].
  apply bool_decide_eq_false in Hvis. lra.
Qed.

Lemma missing_or_low_true (landmarks : Landmarks) (i : nat) :
  (at_index landmarks i = None \/
   exists p, at_index landmarks i = Some p /\ visibility p < 0.7) ->
  missing_or_low landmarks i = true.
Proof.
  unfold missing_or_low. intros [-> | (p & -> & Hlow)]; [reflexivity|].
  apply bool_decide_true. exact Hlow.
Qed.

Lemma gate_rejects (cfg : Config) (landmarks : Landmarks) (i : nat) :
  In i (requiredLandmarks (LANDMARK_INDICES cfg)) ->
  missing_or_low landmarks i = true ->
  isStartPoseAchieved cfg (Some landmarks) = Ok false.
Proof.
  intros Hin Hbad. unfold isStartPoseAchieved; cbv zeta.
  replace (existsb _ _) with true; [reflexivity|].
  symmetry. apply existsb_exists. exists i. split; assumption.
Qed.

Lemma andb_decide (P Q : Prop) `{Decision P} `{Decision Q} :
  bool_decide P && bool_decide Q = true <-> P /\ Q.
Proof.
  rewrite andb_true_iff, !bool_decide_eq_true. reflexivity.
Qed.

Lemma gate_accepts (cfg : Config) (landmarks : Landmarks)
    (ls le lw lh rs re rw rh : Point) :
  let L := LANDMARK_INDICES cfg in
  existsb (missing_or_low landmarks) (requiredLandmarks L) = false ->
  at_index landmarks (LEFT_SHOULDER L) = Some ls ->
  at_index landmarks (LEFT_ELBOW L) = Some le ->
  at_index landmarks (LEFT_WRIST L) = Some lw ->
  at_index landmarks (LEFT_HIP L) = Some lh ->
  at_index landmarks (RIGHT_SHOULDER L) = Some rs ->
  at_index landmarks (RIGHT_ELBOW L) = Some re ->
  at_index landmarks (RIGHT_WRIST L) = Some rw ->
  at_index landmarks (RIGHT_HIP L) = Some rh ->
  exists b, isStartPoseAchieved cfg (Some landmarks) = Ok b /\
    (b = true <-> arm_within_start_tolerance cfg ls le lw lh /\
                  arm_within_start_tolerance cfg rs re rw rh).
Proof.
  intros L Hpass Hls Hle Hlw Hlh Hrs Hre Hrw Hrh.
  unfold isStartPoseAchieved; cbv zeta. fold L.
  rewrite Hpass, Hls, Hle, Hlw, Hlh, Hrs, Hre, Hrw, Hrh. simpl.
  eexists. split; [reflexivity|].
  unfold arm_within_start_tolerance.
  rewrite andb_true_iff, !andb_decide. reflexivity.
Qed.

Lemma required_all_visible (cfg : Config) (landmarks : Landmarks) :
  (forall i, In i (requiredLandmarks (LANDMARK_INDICES cfg)) ->
             exists p, at_index landmarks i = Some p /\ 0.7 <= visibility p) ->
  existsb (missing_or_low landmarks) (requiredLandmarks (LANDMARK_INDICES cfg))
  = false.
Proof.
  intros Hall. apply not_true_is_false. intros Hex.
  apply existsb_exists in Hex as (i & Hin & Hbad).
  destruct (Hall i Hin) as (p & Hp & Hvis).
  unfold missing_or_low in Hbad. rewrite Hp in Hbad.
  apply bool_decide_eq_true in Hbad. lra.
Qed.

(** The gate never raises. *)
Lemma isStartPoseAchieved_total (cfg : Config) (landmarks : option Landmarks) :
  exists b, isStartPoseAchieved cfg landmarks = Ok b.
Proof.
  destruct landmarks as [landmarks|]; [|exists false; reflexivity].
  destruct (existsb (missing_or_low landmarks)
              (requiredLandmarks (LANDMARK_INDICES cfg))) eqn:Hex.
  - exists false. unfold isStartPoseAchieved; cbv zeta. rewrite Hex. reflexivity.
  - pose proof Hex as Hpass. simpl in Hex.
    repeat (apply orb_false_elim in Hex as [? Hex]).
    repeat match goal with
           | Hm : missing_or_low _ _ = false |- _ =>
               apply missing_or_low_false in Hm as (? & ? & ?)
           end.
    edestruct gate_accepts as (b & Hb & _); try eassumption.
    exists b. exact Hb.
Qed.


(** C10. The gate answers [false], without raising, when the landmark array
    is [null] or [undefined] and when one of the eight required entries is
    missing from the array. *)
Theorem isStartPoseAchieved_absent_data (cfg : Config) :
  isStartPoseAchieved cfg None = Ok false /\
  (forall (landmarks : Landmarks) i,
     In i (requiredLandmarks (LANDMARK_INDICES cfg)) ->
     at_index landmarks i = None ->
     isStartPoseAchieved cfg (Some landmarks) = Ok false).
Proof.
  split; [reflexivity|].
  intros landmarks i Hin Hmiss. apply (gate_rejects cfg landmarks i Hin).
  apply missing_or_low_true. left. exact Hmiss.
Qed.

(** ** ScoreEvaluator: rounding and the linear sub-score *)

Lemma Int_part_bounds (r : R) : IZR (Int_part r) <= r < IZR (Int_part r) + 1.
Proof. pose proof (base_Int_part r) as [Hle Hgt]. lra. Qed.

Lemma Int_part_eq (r : R) (n : Z) : IZR n <= r < IZR n + 1 -> Int_part r = n.
Proof. intros Hr. symmetry. apply Int_part_spec. lra. Qed.

Lemma toFixed1_nonneg (v : R) :
  0 <= v -> toFixed1 v = Int_part (10 * v + / 2).
Proof. intros Hv. unfold toFixed1. rewrite bool_decide_false by lra. reflexivity. Qed.

(** [toFixed(1)] of a number that already has one decimal. *)
Lemma toFixed1_tenths (n : Z) : (0 <= n)%Z -> toFixed1 (IZR n / 10) = n.
Proof.
  intros Hn. apply IZR_le in Hn.
  rewrite toFixed1_nonneg by lra.
  apply Int_part_eq. lra.
Qed.

Lemma parseFloat_toFixed1_near (v : R) :
  0 <= v -> Rabs (parseFloat_toFixed1 v - v) <= / 20.
Proof.
  intros Hv. unfold parseFloat_toFixed1. rewrite toFixed1_nonneg by exact Hv.
  pose proof (Int_part_bounds (10 * v + / 2)) as [Hlo Hhi].
  apply Rabs_le. lra.
Qed.

Lemma parseFloat_toFixed1_range (v : R) :
  0 <= v <= 100 -> 0 <= parseFloat_toFixed1 v <= 100.
Proof.
  intros [Hlo Hhi]. unfold parseFloat_toFixed1. rewrite toFixed1_nonneg by exact Hlo.
  pose proof (Int_part_bounds (10 * v + / 2)) as [Hle Hlt].
  assert (Hz : (0 <= Int_part (10 * v + / 2) <= 1000)%Z).
  { split.
    - apply Z.lt_succ_r, lt_IZR. rewrite succ_IZR. lra.
    - apply Z.lt_succ_r, lt_IZR. rewrite succ_IZR. lra. }
  destruct Hz as [Hz0 Hz1]. apply IZR_le in Hz0, Hz1. lra.
Qed.

Lemma floored_linear_decay (dev tol : R) :
  0 <= dev -> 0 < tol -> linear_decay dev tol (Rmax 0 (100 * (1 - dev / tol))).
Proof.
  intros Hdev Htol.
  assert (Hinv : 0 < / tol) by (apply Rinv_0_lt_compat; exact Htol).
  assert (Hq : 0 <= dev / tol) by (unfold Rdiv; nra).
  assert (Hone : tol / tol = 1) by (field; lra).
  assert (Hle : dev <= tol -> dev / tol <= 1).
  { intros Hd. rewrite <- Hone. unfold Rdiv. nra. }
  assert (Hge : tol <= dev -> 1 <= dev / tol).
  { intros Hd. rewrite <- Hone. unfold Rdiv. nra. }
  assert (Hlt : dev < tol -> dev / tol < 1).
  { intros Hd. rewrite <- Hone. unfold Rdiv. nra. }
  assert (Hzero : dev / tol = 0 -> dev = 0).
  { intros Hz. replace dev with (dev / tol * tol) by (field; lra). rewrite Hz. ring. }
  unfold linear_decay.
  destruct (Rle_dec tol dev) as [Hfar | Hnear].
  - specialize (Hge Hfar). rewrite Rmax_left by lra.
    repeat split; try lra.
    all: intros Hd; assert (dev = tol) as -> by lra; field; lra.
  - assert (Hd : dev < tol) by lra. specialize (Hlt Hd).
    rewrite Rmax_right by lra.
    repeat split; try lra.
    all: match goal with
         | |- _ = 100 -> _ = 0 => intros Hs; apply Hzero; lra
         | |- _ = 0 -> _ = 100 => intros ->; unfold Rdiv; ring
         | |- _ <= _ -> _ => intros _; unfold Rdiv; ring
         end.
Qed.

Lemma tiltDiff_nonneg (R_H R_K : Point) : 0 <= tiltDiff R_H R_K.
Proof.
  unfold tiltDiff; cbv zeta. apply Rmin_glb; apply Rabs_pos.
Qed.

Lemma surface_height_nonneg (canvasElement : option Canvas) :
  0 <= surface_height canvasElement.
Proof.
  destruct canvasElement as [c|]; simpl; [apply pos_INR | lra].
Qed.

Lemma hipDeltaY_nonneg (canvasElement : option Canvas) (R_H L_H : Point) :
  0 <= hipDeltaY canvasElement R_H L_H.
Proof.
  unfold hipDeltaY. apply Rmult_le_pos; [apply Rabs_pos | apply surface_height_nonneg].
Qed.

Lemma hipBalance_linear_decay (canvasElement : option Canvas) (R_H L_H : Point) :
  linear_decay (hipDeltaY canvasElement R_H L_H) 20
    (hipBalanceScore canvasElement R_H L_H).
Proof.
  unfold hipBalanceScore. apply floored_linear_decay; [apply hipDeltaY_nonneg | lra].
Qed.

(** ** ScoreEvaluator: evaluating [calculateMatchScore] *)

Lemma low_visibility_at (landmarks : Landmarks) (i : nat) (p : Point) :
  at_index landmarks i = Some p ->
  low_visibility landmarks i = Ok (bool_decide (visibility p < 0.7)).
Proof. intros Hp. unfold low_visibility. rewrite Hp. reflexivity. Qed.

Lemma mean_score_2 (a b : R) :
  mean_score (0 + a + b) 2 = parseFloat_toFixed1 ((a + b) / 2).
Proof.
  unfold mean_score. rewrite bool_decide_false by discriminate.
  f_equal. simpl INR. lra.
Qed.

Lemma mean_score_3 (a b c : R) :
  mean_score (0 + a + b + c) 3 = parseFloat_toFixed1 ((a + b + c) / 3).
Proof.
  unfold mean_score. rewrite bool_decide_false by discriminate.
  f_equal. simpl INR. lra.
Qed.

(** Every way [calculateMatchScore] can return a number. *)
Lemma calculateMatchScore_inv (cfg : Config) (cs : list Challenge) (idx : nat)
    (canvasElement : option Canvas) (landmarks : Landmarks) (s : R) :
  calculateMatchScore cfg cs idx canvasElement landmarks = Ok s ->
  s = 0 \/
  (exists pS pE pW pH, s = parseFloat_toFixed1 (arm_mean cfg pS pE pW pH)) \/
  (exists pK pA pRH pLH,
     s = parseFloat_toFixed1 (leg_mean cfg canvasElement pK pA pRH pLH)).
Proof.
  unfold calculateMatchScore; cbv zeta.
  destruct (cs !! idx) as [ch|]; [|intros [= <-]; left; reflexivity].
  destruct (bool_decide (targetType ch = "ARM")).
  - destruct (arm_side ch) as [side|]; simpl; [|intros [=]].
    destruct (or_else _ _) as [[|]|]; simpl;
      [intros [= <-]; left; reflexivity| |intros [=]].
    do 4 (destruct (at_index _ _) as [?p|]); simpl; try solve [intros [=]].
    intros [= <-]. right; left. do 4 eexists.
    rewrite mean_score_2. reflexivity.
  - destruct (bool_decide (targetType ch = "LEG_BALANCE")).
    + destruct (or_else _ _) as [[|]|]; simpl;
        [intros [= <-]; left; reflexivity| |intros [=]].
      do 4 (destruct (at_index _ _) as [?p|]); simpl; try solve [intros [=]].
      intros [= <-]. right; right. do 4 eexists.
      rewrite mean_score_3. reflexivity.
    + intros [= <-]. left. reflexivity.
Qed.

Lemma or_else_false4 (a b c d : bool) :
  or_else (or_else (or_else (Ok a) (Ok b)) (Ok c)) (Ok d) = Ok (a || b || c || d).
Proof. destruct a, b, c, d; reflexivity. Qed.

Lemma calculateMatchScore_arm (cfg : Config) (cs : list Challenge) (idx : nat)
    (canvasElement : option Canvas) (landmarks : Landmarks)
    (ch : Challenge) (side : Side) (pS pE pW pH : Point) :
  let L := LANDMARK_INDICES cfg in
  cs !! idx = Some ch ->
  targetType ch = "ARM" ->
  arm_side ch = Ok side ->
  at_index landmarks (side_SHOULDER L side) = Some pS ->
  at_index landmarks (side_ELBOW L side) = Some pE ->
  at_index landmarks (side_WRIST L side) = Some pW ->
  at_index landmarks (side_HIP L side) = Some pH ->
  calculateMatchScore cfg cs idx canvasElement landmarks =
  if bool_decide (visibility pS < 0.7) || bool_decide (visibility pE < 0.7)
     || bool_decide (visibility pW < 0.7) || bool_decide (visibility pH < 0.7)
  then Ok 0
  else Ok (parseFloat_toFixed1 (arm_mean cfg pS pE pW pH)).
Proof.
  intros L Hch Hty Hside HS HE HW HH.
  unfold calculateMatchScore; cbv zeta. fold L.
  rewrite Hch, (bool_decide_true _ Hty), Hside. simpl.
  rewrite (low_visibility_at _ _ _ HS), (low_visibility_at _ _ _ HE),
    (low_visibility_at _ _ _ HW), (low_visibility_at _ _ _ HH).
  rewrite or_else_false4. simpl.
  destruct (_ || _ || _ || _); [reflexivity|].
  rewrite HS, HE, HW, HH. simpl. rewrite mean_score_2. reflexivity.
Qed.

Lemma calculateMatchScore_leg (cfg : Config) (cs : list Challenge) (idx : nat)
    (canvasElement : option Canvas) (landmarks : Landmarks)
    (ch : Challenge) (pK pA pRH pLH : Point) :
  let L := LANDMARK_INDICES cfg in
  cs !! idx = Some ch ->
  targetType ch = "LEG_BALANCE" ->
  at_index landmarks (RIGHT_KNEE L) = Some pK ->
  at_index landmarks (RIGHT_ANKLE L) = Some pA ->
  at_index landmarks (RIGHT_HIP L) = Some pRH ->
  at_index landmarks (LEFT_HIP L) = Some pLH ->
  calculateMatchScore cfg cs idx canvasElement landmarks =
  if bool_decide (visibility pK < 0.7) || bool_decide (visibility pA < 0.7)
     || bool_decide (visibility pRH < 0.7) || bool_decide (visibility pLH < 0.7)
  then Ok 0
  else Ok (parseFloat_toFixed1 (leg_mean cfg canvasElement pK pA pRH pLH)).
Proof.
  intros L Hch Hty HK HA HRH HLH.
  unfold calculateMatchScore; cbv zeta. fold L.
  rewrite Hch, Hty.
  rewrite (bool_decide_false ("LEG_BALANCE" = "ARM")) by discriminate.
  rewrite (bool_decide_true ("LEG_BALANCE" = "LEG_BALANCE")) by reflexivity.
  rewrite (low_visibility_at _ _ _ HK), (low_visibility_at _ _ _ HA),
    (low_visibility_at _ _ _ HRH), (low_visibility_at _ _ _ HLH).
  rewrite or_else_false4. simpl.
  destruct (_ || _ || _ || _); [reflexivity|].
  rewrite HK, HA, HRH, HLH. simpl. rewrite mean_score_3. reflexivity.
Qed.

(** A challenge of an unsupported type contributes no joint: the score is 0. *)
Lemma calculateMatchScore_unsupported (cfg : Config) (cs : list Challenge)
    (idx : nat) (canvasElement : option Canvas) (landmarks : Landmarks)
    (ch : Challenge) :
  cs !! idx = Some ch ->
  targetType ch <> "ARM" -> targetType ch <> "LEG_BALANCE" ->
  calculateMatchScore cfg cs idx canvasElement landmarks = Ok 0.
Proof.
  intros Hch Harm Hleg. unfold calculateMatchScore; cbv zeta.
  rewrite Hch, (bool_decide_false _ Harm), (bool_decide_false _ Hleg).
  reflexivity.
Qed.

Lemma arm_mean_range (cfg : Config) (pS pE pW pH : Point) :
  0 < TOLERANCE_ELBOW cfg -> 0 < TOLERANCE_SHOULDER cfg ->
  0 <= arm_mean cfg pS pE pW pH <= 100.
Proof.
  intros HtE HtS. unfold arm_mean.
  destruct (floored_linear_decay (diffElbow cfg pS pE pW) (TOLERANCE_ELBOW cfg))
    as [He _]; [apply Rabs_pos | exact HtE |].
  destruct (floored_linear_decay (diffShoulder cfg pH pS pE) (TOLERANCE_SHOULDER cfg))
    as [Hs _]; [apply Rabs_pos | exact HtS |].
  fold (scoreElbow cfg pS pE pW) in He.
  fold (scoreShoulder cfg pH pS pE) in Hs. lra.
Qed.

Lemma leg_mean_range (cfg : Config) (canvasElement : option Canvas)
    (pK pA pRH pLH : Point) :
  0 < TOLERANCE_KNEE cfg -> 0 < TOLERANCE_TILT cfg ->
  0 <= leg_mean cfg canvasElement pK pA pRH pLH <= 100.
Proof.
  intros HtK HtT. unfold leg_mean.
  destruct (floored_linear_decay (diffKnee cfg pRH pK pA) (TOLERANCE_KNEE cfg))
    as [Hk _]; [apply Rabs_pos | exact HtK |].
  destruct (floored_linear_decay (tiltDiff pRH pK) (TOLERANCE_TILT cfg))
    as [Ht _]; [apply tiltDiff_nonneg | exact HtT |].
  destruct (hipBalance_linear_decay canvasElement pRH pLH) as [Hh _].
  fold (scoreKnee cfg pRH pK pA) in Hk.
  fold (scoreTilt cfg pRH pK) in Ht. lra.
Qed.

Lemma calculateMatchScore_range (cfg : Config) (cs : list Challenge) (idx : nat)
    (canvasElement : option Canvas) (landmarks : Landmarks) (s : R) :
  0 < TOLERANCE_ELBOW cfg -> 0 < TOLERANCE_SHOULDER cfg ->
  0 < TOLERANCE_KNEE cfg -> 0 < TOLERANCE_TILT cfg ->
  calculateMatchScore cfg cs idx canvasElement landmarks = Ok s ->
  0 <= s <= 100.
Proof.
  intros HtE HtS HtK HtT Hs.
  apply calculateMatchScore_inv in Hs
    as [-> | [(pS & pE & pW & pH & ->) | (pK & pA & pRH & pLH & ->)]].
  - lra.
  - apply parseFloat_toFixed1_range, arm_mean_range; assumption.
  - apply parseFloat_toFixed1_range, leg_mean_range; assumption.
Qed.

(** C4. With positive tolerances, each of the five floored sub-scores lies
    in [0,100], is 100 only at zero deviation, follows the line from 100 at
    deviation 0 down to 0 at the tolerance, and is 0 exactly from the
    tolerance on.  The deviation is the distance of the measured angle to
    its target for the elbow, the shoulder and the knee; for the tilt it is
    the angle of the knee-to-hip segment to the vertical, in degrees and
    folded to its supplement; for the hip levelness it is the difference of
    the hip heights in pixels of the surface, with 20 pixels as tolerance.
    When the four landmarks of the challenge are visible the overall score
    is the unweighted mean of the floored sub-scores rounded to the nearest
    tenth, and every score returned lies in [0,100]. *)
Theorem sub_scores_linear_and_score_bounded (cfg : Config) :
  0 < TOLERANCE_ELBOW cfg -> 0 < TOLERANCE_SHOULDER cfg ->
  0 < TOLERANCE_KNEE cfg -> 0 < TOLERANCE_TILT cfg ->
  let L := LANDMARK_INDICES cfg in
  (forall pS pE pW pH,
     linear_decay (Rabs (calculateAngle pS pE pW - TARGET_ELBOW cfg))
       (TOLERANCE_ELBOW cfg) (Rmax 0 (scoreElbow cfg pS pE pW)) /\
     linear_decay (Rabs (calculateAngle pH pS pE - TARGET_SHOULDER cfg))
       (TOLERANCE_SHOULDER cfg) (Rmax 0 (scoreShoulder cfg pH pS pE))) /\
  (forall canvasElement pK pA pRH pLH,
     let verticalAngle :=
       Rabs (atan2 (x pRH - x pK) (y pRH - y pK) * (180 / PI)) in
     let surface :=
       match canvasElement with Some c => INR (height c) | None => 480 end in
     linear_decay (Rabs (calculateAngle pRH pK pA - TARGET_KNEE_STRAIGHT cfg))
       (TOLERANCE_KNEE cfg) (Rmax 0 (scoreKnee cfg pRH pK pA)) /\
     linear_decay (Rmin verticalAngle (Rabs (180 - verticalAngle)))
       (TOLERANCE_TILT cfg) (Rmax 0 (scoreTilt cfg pRH pK)) /\
     linear_decay (Rabs (y pRH - y pLH) * surface) 20
       (hipBalanceScore canvasElement pRH pLH)) /\
  (forall cs idx canvasElement landmarks ch side pS pE pW pH,
     cs !! idx = Some ch -> targetType ch = "ARM" -> arm_side ch = Ok side ->
     at_index landmarks (side_SHOULDER L side) = Some pS -> 0.7 <= visibility pS ->
     at_index landmarks (side_ELBOW L side) = Some pE -> 0.7 <= visibility pE ->
     at_index landmarks (side_WRIST L side) = Some pW -> 0.7 <= visibility pW ->
     at_index landmarks (side_HIP L side) = Some pH -> 0.7 <= visibility pH ->
     calculateMatchScore cfg cs idx canvasElement landmarks
     = Ok (parseFloat_toFixed1
             ((Rmax 0 (scoreElbow cfg pS pE pW)
               + Rmax 0 (scoreShoulder cfg pH pS pE)) / 2))) /\
  (forall cs idx canvasElement landmarks ch pK pA pRH pLH,
     cs !! idx = Some ch -> targetType ch = "LEG_BALANCE" ->
     at_index landmarks (RIGHT_KNEE L) = Some pK -> 0.7 <= visibility pK ->
     at_index landmarks (RIGHT_ANKLE L) = Some pA -> 0.7 <= visibility pA ->
     at_index landmarks (RIGHT_HIP L) = Some pRH -> 0.7 <= visibility pRH ->
     at_index landmarks (LEFT_HIP L) = Some pLH -> 0.7 <= visibility pLH ->
     calculateMatchScore cfg cs idx canvasElement landmarks
     = Ok (parseFloat_toFixed1
             ((Rmax 0 (scoreKnee cfg pRH pK pA)
               + Rmax 0 (scoreTilt cfg pRH pK)
               + hipBalanceScore canvasElement pRH pLH) / 3))) /\
  (forall v, 0 <= v ->
     Rabs (parseFloat_toFixed1 v - v) <= / 20 /\
     parseFloat_toFixed1 v * 10 = IZR (toFixed1 v)) /\
  (forall cs idx canvasElement landmarks s,
     calculateMatchScore cfg cs idx canvasElement landmarks = Ok s ->
     0 <= s <= 100).
Proof.
  intros HtE HtS HtK HtT L.
  split; [|split; [|split; [|split; [|split]]]].
  - intros pS pE pW pH. split.
    + apply floored_linear_decay; [apply Rabs_pos | exact HtE].
    + apply floored_linear_decay; [apply Rabs_pos | exact HtS].
  - intros canvasElement pK pA pRH pLH verticalAngle surface.
    split; [|split].
    + apply floored_linear_decay; [apply Rabs_pos | exact HtK].
    + apply (floored_linear_decay (tiltDiff pRH pK));
        [apply tiltDiff_nonneg | exact HtT].
    + apply hipBalance_linear_decay.
  - intros cs idx canvasElement landmarks ch side pS pE pW pH
      Hch Hty Hside HS VS HE VE HW VW HH VH.
    rewrite (calculateMatchScore_arm cfg cs idx canvasElement landmarks
               ch side pS pE pW pH) by assumption.
    rewrite !bool_decide_false by lra. reflexivity.
  - intros cs idx canvasElement landmarks ch pK pA pRH pLH
      Hch Hty HK VK HA VA HRH VRH HLH VLH.
    rewrite (calculateMatchScore_leg cfg cs idx canvasElement landmarks
               ch pK pA pRH pLH) by assumption.
    rewrite !bool_decide_false by lra. reflexivity.
  - intros v Hv. split; [apply parseFloat_toFixed1_near; exact Hv|].
    unfold parseFloat_toFixed1. field.
  - intros cs idx canvasElement landmarks s.
    apply calculateMatchScore_range; assumption.
Qed.

(** C9. The hip-levelness sub-score takes the absolute difference of the
    normalized hip heights, turns it into pixels with the pixel height of
    the rendering surface, and maps the pixel difference linearly: 0 px
    gives 100, 10 px gives 50, 20 px or more gives 0. *)
Theorem hip_levelness_subscore (canvasElement : option Canvas) (R_H L_H : Point) :
  let px := hipDeltaY canvasElement R_H L_H in
  px = Rabs (y R_H - y L_H) * surface_height canvasElement /\
  (forall c, canvasElement = Some c -> surface_height canvasElement = INR (height c)) /\
  (px <= 20 -> hipBalanceScore canvasElement R_H L_H = 100 - 5 * px) /\
  (px = 0 -> hipBalanceScore canvasElement R_H L_H = 100) /\
  (px = 10 -> hipBalanceScore canvasElement R_H L_H = 50) /\
  (20 <= px -> hipBalanceScore canvasElement R_H L_H = 0).
Proof.
  intros px.
  destruct (hipBalance_linear_decay canvasElement R_H L_H)
    as (_ & _ & Hline & Hzero).
  fold px in Hline, Hzero.
  split; [reflexivity|]. split; [intros c ->; reflexivity|].
  assert (Hlin : px <= 20 -> hipBalanceScore canvasElement R_H L_H = 100 - 5 * px).
  { intros Hpx. rewrite (Hline Hpx). lra. }
  split; [exact Hlin|].
  split; [intros H0; rewrite Hlin; lra|].
  split; [intros H10; rewrite Hlin; lra|].
  intros Hfar. apply Hzero. exact Hfar.
Qed.

Lemma hip_levelness_subscore_witness :
  hipBalanceScore (Some canvas_480) (point (2/5) (1/2) 1)
    (point (3/5) (1/2 + 10/480) 1) = 50.
Proof.
  apply (hip_levelness_subscore (Some canvas_480) (point (2/5) (1/2) 1)
           (point (3/5) (1/2 + 10/480) 1)).
  unfold hipDeltaY, surface_height, canvas_480, point; simpl x; simpl y; simpl height.
  rewrite INR_IZR_INZ. change (Z.of_nat 480) with 480%Z.
  rewrite Rabs_left by lra. lra.
Defined.

(** ** Running the definitions on the example skeleton *)

Lemma acos_minus_1 : acos (-1) = PI.
Proof. unfold acos. destruct (Rle_dec (-1) (-1)); [reflexivity | lra]. Qed.

(** Three landmarks on a vertical line, the vertex in the middle. *)
Lemma calculateAngle_straight (A M B : Point) :
  x A = x M -> x B = x M -> y M < y A -> y B < y M ->
  calculateAngle A M B = 180.
Proof.
  intros HxA HxB HyA HyB. unfold calculateAngle; cbv zeta.
  replace (x A - x M) with 0 by lra. replace (x B - x M) with 0 by lra.
  set (a := y A - y M).
  replace (y B - y M) with (- (y M - y B)) by lra.
  set (b := y M - y B).
  assert (Ha : 0 < a) by (unfold a; lra).
  assert (Hb : 0 < b) by (unfold b; lra).
  replace (0 ^ 2 + a ^ 2) with (a ^ 2) by ring.
  replace (0 ^ 2 + (- b) ^ 2) with (b ^ 2) by ring.
  rewrite !sqrt_pow2 by lra.
  rewrite !bool_decide_true by lra. simpl andb. cbv iota.
  replace ((0 * 0 + a * - b) / (a * b)) with (-1) by (field; lra).
  rewrite Rmin_right by lra. rewrite Rmax_left by lra.
  rewrite acos_minus_1. field. apply PI_neq0.
Qed.

(** Two perpendicular rays, one along each axis. *)
Lemma calculateAngle_right (A M B : Point) :
  x A = x M -> y M < y A -> y B = y M -> x M < x B ->
  calculateAngle A M B = 90.
Proof.
  intros HxA HyA HyB HxB. unfold calculateAngle; cbv zeta.
  replace (x A - x M) with 0 by lra. replace (y B - y M) with 0 by lra.
  set (a := y A - y M). set (b := x B - x M).
  assert (Ha : 0 < a) by (unfold a; lra).
  assert (Hb : 0 < b) by (unfold b; lra).
  replace (0 ^ 2 + a ^ 2) with (a ^ 2) by ring.
  replace (b ^ 2 + 0 ^ 2) with (b ^ 2) by ring.
  rewrite !sqrt_pow2 by lra.
  rewrite !bool_decide_true by lra. simpl andb. cbv iota.
  replace ((0 * b + a * 0) / (a * b)) with 0 by (field; lra).
  rewrite Rmin_right by lra. rewrite Rmax_right by lra.
  rewrite acos_0. field. apply PI_neq0.
Qed.

Lemma arms_up_at (vL vR : R) (i : nat) :
  (i < 33)%nat -> at_index (arms_up vL vR) i = Some (arms_up_point vL vR i).
Proof.
  intros Hi. unfold at_index, arms_up.
  rewrite list_lookup_fmap, lookup_seq_lt by exact Hi. reflexivity.
Qed.

Lemma arms_up_left_angles (vL vR : R) :
  calculateAngle (arms_up_point vL vR 11) (arms_up_point vL vR 13)
    (arms_up_point vL vR 15) = 180 /\
  calculateAngle (arms_up_point vL vR 23) (arms_up_point vL vR 11)
    (arms_up_point vL vR 13) = 180.
Proof.
  split; apply calculateAngle_straight; simpl; lra.
Qed.

Lemma arms_up_right_angles (vL vR : R) :
  calculateAngle (arms_up_point vL vR 12) (arms_up_point vL vR 14)
    (arms_up_point vL vR 16) = 180 /\
  calculateAngle (arms_up_point vL vR 24) (arms_up_point vL vR 12)
    (arms_up_point vL vR 14) = 180.
Proof.
  split; apply calculateAngle_straight; simpl; lra.
Qed.

Lemma arms_up_left_mean (vL vR : R) :
  arm_mean example_config (arms_up_point vL vR 11) (arms_up_point vL vR 13)
    (arms_up_point vL vR 15) (arms_up_point vL vR 23) = 100.
Proof.
  destruct (arms_up_left_angles vL vR) as [He Hs].
  unfold arm_mean, scoreElbow, scoreShoulder, diffElbow, diffShoulder.
  rewrite He, Hs. simpl TARGET_ELBOW. simpl TARGET_SHOULDER.
  simpl TOLERANCE_ELBOW. simpl TOLERANCE_SHOULDER.
  replace (180 - 180) with 0 by ring. rewrite Rabs_R0.
  rewrite Rmax_right by lra. lra.
Qed.

Lemma arms_up_right_mean (vL vR : R) :
  arm_mean example_config (arms_up_point vL vR 12) (arms_up_point vL vR 14)
    (arms_up_point vL vR 16) (arms_up_point vL vR 24) = 100.
Proof.
  destruct (arms_up_right_angles vL vR) as [He Hs].
  unfold arm_mean, scoreElbow, scoreShoulder, diffElbow, diffShoulder.
  rewrite He, Hs. simpl TARGET_ELBOW. simpl TARGET_SHOULDER.
  simpl TOLERANCE_ELBOW. simpl TOLERANCE_SHOULDER.
  replace (180 - 180) with 0 by ring. rewrite Rabs_R0.
  rewrite Rmax_right by lra. lra.
Qed.

Lemma arms_up_accepted :
  isStartPoseAchieved example_config (Some (arms_up 1 1)) = Ok true.
Proof.
  destruct (gate_accepts example_config (arms_up 1 1)
              (arms_up_point 1 1 11) (arms_up_point 1 1 13)
              (arms_up_point 1 1 15) (arms_up_point 1 1 23)
              (arms_up_point 1 1 12) (arms_up_point 1 1 14)
              (arms_up_point 1 1 16) (arms_up_point 1 1 24))
    as (b & Hb & Hiff); try (apply arms_up_at; simpl; lia).
  - apply required_all_visible. intros i Hi. simpl in Hi.
    repeat destruct Hi as [<- | Hi]; try contradiction;
      (eexists; split; [apply arms_up_at; simpl; lia | simpl; lra]).
  - rewrite Hb. f_equal. apply Hiff.
    destruct (arms_up_left_angles 1 1) as [Hle Hls].
    destruct (arms_up_right_angles 1 1) as [Hre Hrs].
    unfold arm_within_start_tolerance. rewrite Hle, Hls, Hre, Hrs. simpl.
    replace (180 - 180) with 0 by ring. rewrite Rabs_R0. lra.
Qed.

Lemma parseFloat_toFixed1_100 : parseFloat_toFixed1 100 = 100.
Proof.
  unfold parseFloat_toFixed1.
  replace 100 with (IZR 1000 / 10) at 1 by lra.
  rewrite toFixed1_tenths by lia. lra.
Qed.

(** The end-to-end example of the spec: both angles on target, all
    landmarks visible, the score is 100.0. *)
Example arm_score_on_target :
  calculateMatchScore example_config [arm_challenge (Some ["LEFT_WRIST"])] 0
    (Some canvas_480) (arms_up 1 1) = Ok 100.
Proof.
  rewrite (calculateMatchScore_arm example_config _ 0 _ _
             (arm_challenge (Some ["LEFT_WRIST"])) LEFT
             (arms_up_point 1 1 11) (arms_up_point 1 1 13)
             (arms_up_point 1 1 15) (arms_up_point 1 1 23));
    try reflexivity; try (apply arms_up_at; simpl; lia).
  simpl visibility. rewrite !bool_decide_false by lra. simpl orb. cbv iota.
  rewrite arms_up_left_mean, parseFloat_toFixed1_100. reflexivity.
Qed.

(** A straight elbow scores 100, an elbow bent at a right angle is 90
    degrees off the target and scores 0, and the skeleton with both arms
    raised gets the mean of its two sub-scores. *)
Lemma sub_scores_linear_and_score_bounded_witness :
  Rmax 0 (scoreElbow example_config (arms_up_point 1 1 11)
            (arms_up_point 1 1 13) (arms_up_point 1 1 15)) = 100 /\
  Rmax 0 (scoreElbow example_config (point (3/5) (1/2) 1)
            (point (3/5) (1/4) 1) (point (4/5) (1/4) 1)) = 0 /\
  Rmax 0 (scoreTilt example_config (point (2/5) (3/4) 1) (point (2/5) 1 1))
    = 100 /\
  calculateMatchScore example_config [arm_challenge (Some ["LEFT_WRIST"])] 0
    (Some canvas_480) (arms_up 1 1)
  = Ok (parseFloat_toFixed1
          ((Rmax 0 (scoreElbow example_config (arms_up_point 1 1 11)
                      (arms_up_point 1 1 13) (arms_up_point 1 1 15))
            + Rmax 0 (scoreShoulder example_config (arms_up_point 1 1 23)
                        (arms_up_point 1 1 11) (arms_up_point 1 1 13))) / 2)).
Proof.
  assert (Htol : 0 < TOLERANCE_ELBOW example_config /\
                 0 < TOLERANCE_SHOULDER example_config /\
                 0 < TOLERANCE_KNEE example_config /\
                 0 < TOLERANCE_TILT example_config) by (simpl; lra).
  destruct Htol as (HtE & HtS & HtK & HtT).
  destruct (sub_scores_linear_and_score_bounded example_config HtE HtS HtK HtT)
    as (Harm & Hleg & Hscore & _).
  split; [|split; [|split]].
  - destruct (Harm (arms_up_point 1 1 11) (arms_up_point 1 1 13)
                (arms_up_point 1 1 15) (arms_up_point 1 1 23))
      as [(_ & Hfull & _) _].
    apply Hfull. destruct (arms_up_left_angles 1 1) as [-> _].
    simpl. replace (180 - 180) with 0 by ring. apply Rabs_R0.
  - destruct (Harm (point (3/5) (1/2) 1) (point (3/5) (1/4) 1)
                (point (4/5) (1/4) 1) (point (3/5) (3/4) 1))
      as [(_ & _ & _ & Hzero) _].
    apply Hzero. rewrite calculateAngle_right by (simpl; lra).
    simpl. unfold Rabs. destruct (Rcase_abs (90 - 180)); lra.
  - destruct (Hleg (Some canvas_480) (point (2/5) 1 1) (point (2/5) 1 1)
                (point (2/5) (3/4) 1) (point (3/5) (3/4) 1))
      as (_ & (_ & Hfull & _) & _).
    apply Hfull. simpl x. simpl y.
    replace (2 / 5 - 2 / 5) with 0 by lra.
    replace (3 / 4 - 1) with (- (1 / 4)) by lra.
    unfold atan2.
    rewrite (bool_decide_false (0 < - (1 / 4))) by lra.
    rewrite (bool_decide_true (- (1 / 4) < 0)) by lra.
    rewrite (bool_decide_false (0 < 0)) by lra.
    replace (0 / - (1 / 4)) with 0 by (field; lra).
    rewrite atan_0, Rplus_0_l.
    replace (PI * (180 / PI)) with 180 by (field; apply PI_neq0).
    rewrite (Rabs_pos_eq 180) by lra.
    replace (180 - 180) with 0 by ring. rewrite Rabs_R0.
    apply Rmin_right. lra.
  - apply (Hscore [arm_challenge (Some ["LEFT_WRIST"])] 0%nat (Some canvas_480)
             (arms_up 1 1) (arm_challenge (Some ["LEFT_WRIST"])) LEFT);
      try reflexivity; try (apply arms_up_at; simpl; lia); simpl; lra.
Defined.


Lemma isStartPoseAchieved_absent_data_witness :
  isStartPoseAchieved example_config (Some []) = Ok false.
Proof.
  apply (proj2 (isStartPoseAchieved_absent_data example_config) [] 11%nat).
  - simpl. left. reflexivity.
  - reflexivity.
Defined.

(** C1, where the code departs from it.  The side is chosen by testing
    whether the first evaluation joint contains the letter L.  The joint
    names RIGHT_ELBOW and RIGHT_SHOULDER contain it, so a challenge
    configured with right-side joints is scored on the left landmarks: on a
    skeleton whose left arm is not visible and whose right arm is exactly on
    target the score is 0, although the right arm, scored as it is for a
    joint name without that letter, scores 100. *)
Theorem right_named_joints_scored_on_left :
  arm_side (arm_challenge (Some ["RIGHT_ELBOW"; "RIGHT_SHOULDER"])) = Ok LEFT /\
  calculateMatchScore example_config
    [arm_challenge (Some ["RIGHT_ELBOW"; "RIGHT_SHOULDER"])] 0
    (Some canvas_480) (arms_up 0 1) = Ok 0 /\
  calculateMatchScore example_config
    [arm_challenge (Some ["RIGHT_WRIST"])] 0
    (Some canvas_480) (arms_up 0 1) = Ok 100.
Proof.
  split; [reflexivity|]. split.
  - rewrite (calculateMatchScore_arm example_config _ 0 _ _
               (arm_challenge (Some ["RIGHT_ELBOW"; "RIGHT_SHOULDER"])) LEFT
               (arms_up_point 0 1 11) (arms_up_point 0 1 13)
               (arms_up_point 0 1 15) (arms_up_point 0 1 23));
      try reflexivity; try (apply arms_up_at; simpl; lia).
    simpl visibility. rewrite !bool_decide_true by lra. reflexivity.
  - rewrite (calculateMatchScore_arm example_config _ 0 _ _
               (arm_challenge (Some ["RIGHT_WRIST"])) RIGHT
               (arms_up_point 0 1 12) (arms_up_point 0 1 14)
               (arms_up_point 0 1 16) (arms_up_point 0 1 24));
      try reflexivity; try (apply arms_up_at; simpl; lia).
    simpl visibility. rewrite !bool_decide_false by lra. simpl orb. cbv iota.
    rewrite arms_up_right_mean, parseFloat_toFixed1_100. reflexivity.
Qed.

(** The part of C1 the code does implement: the side is LEFT exactly when
    the first evaluation joint contains the letter L, and on that side a
    landmark with visibility below 0.7 makes the score 0. *)
Lemma arm_side_first_joint (ch : Challenge) (joint : string) (rest : list string) :
  evalJoints ch = Some (joint :: rest) ->
  arm_side ch = Ok (if includes joint "L" then LEFT else RIGHT).
Proof. intros Hj. unfold arm_side. rewrite Hj. reflexivity. Qed.

Lemma calculateMatchScore_arm_low (cfg : Config) (cs : list Challenge) (idx : nat)
    (canvasElement : option Canvas) (landmarks : Landmarks)
    (ch : Challenge) (side : Side) (pS pE pW pH : Point) :
  let L := LANDMARK_INDICES cfg in
  cs !! idx = Some ch -> targetType ch = "ARM" -> arm_side ch = Ok side ->
  at_index landmarks (side_SHOULDER L side) = Some pS ->
  at_index landmarks (side_ELBOW L side) = Some pE ->
  at_index landmarks (side_WRIST L side) = Some pW ->
  at_index landmarks (side_HIP L side) = Some pH ->
  visibility pS < 0.7 \/ visibility pE < 0.7 \/
  visibility pW < 0.7 \/ visibility pH < 0.7 ->
  calculateMatchScore cfg cs idx canvasElement landmarks = Ok 0.
Proof.
  intros L Hch Hty Hside HS HE HW HH Hlow.
  rewrite (calculateMatchScore_arm cfg cs idx canvasElement landmarks
             ch side pS pE pW pH) by assumption.
  replace (_ || _ || _ || _) with true; [reflexivity|].
  symmetry. rewrite !orb_true_iff, !bool_decide_eq_true. tauto.
Qed.

(** C8, where the code departs from it.  The evaluator raises a TypeError
    for an ARM challenge without [evalJoints], whatever the skeleton, and
    for a skeleton from which the landmarks of the challenge are missing;
    the gate answers [false] on that same skeleton. *)
Theorem calculateMatchScore_raises (cfg : Config) (canvasElement : option Canvas) :
  (forall landmarks,
     calculateMatchScore cfg [arm_challenge None] 0 canvasElement landmarks
     = Throw TypeError) /\
  calculateMatchScore cfg [arm_challenge (Some ["LEFT_ELBOW"; "LEFT_SHOULDER"])] 0
    canvasElement [] = Throw TypeError /\
  isStartPoseAchieved cfg (Some []) = Ok false.
Proof.
  split; [reflexivity|]. split; [reflexivity|].
  apply (gate_rejects cfg [] (LEFT_SHOULDER (LANDMARK_INDICES cfg))).
  - simpl. left. reflexivity.
  - reflexivity.
Qed.

(** ** ResultAggregator *)

Lemma totalScore_fold (cs : list Challenge) (acc : R) :
  fold_left (fun totalScore c => totalScore + score c) cs acc
  = acc + sum_scores cs.
Proof.
  revert acc. induction cs as [|c cs IH]; intros acc; simpl.
  - lra.
  - rewrite IH. lra.
Qed.

Lemma scoreList_fold (cs : list Challenge) (acc : list (string * Z)) :
  fold_left (fun scoreList c => scoreList ++ [(name c, toFixed1 (score c))]) cs acc
  = acc ++ report_lines cs.
Proof.
  revert acc. induction cs as [|c cs IH]; intros acc; simpl.
  - rewrite app_nil_r. reflexivity.
  - rewrite IH, <- app_assoc. reflexivity.
Qed.

Lemma averageScore_is_mean (cs : list Challenge) :
  averageScore_of cs = mean_of_scores cs.
Proof.
  unfold averageScore_of, mean_of_scores, totalScore_of.
  rewrite totalScore_fold. f_equal. lra.
Qed.

Lemma scoreList_is_report (cs : list Challenge) :
  scoreList_of cs = report_lines cs.
Proof. unfold scoreList_of. rewrite scoreList_fold. reflexivity. Qed.

Lemma final_updater_tier (mean : R) (prev : ChallengeState) :
  exists st', final_updater mean prev = Ok st' /\
    currentScore st' = ScoreAverage (toFixed1 mean) /\
    challenges st' = challenges prev /\
    (90 < mean ->
     guideMessage st' = MsgAllDonePerfect (toFixed1 mean) /\
     scoreColor st' = "#4CAF50") /\
    (mean <= 90 ->
     guideMessage st' = MsgAllDoneRetry (toFixed1 mean) /\
     scoreColor st' = "#FFC107").
Proof.
  unfold final_updater.
  destruct (bool_decide (mean > 90)) eqn:Hgt.
  - apply bool_decide_eq_true in Hgt. eexists. split; [reflexivity|].
    simpl. repeat split; intros; lra.
  - apply bool_decide_eq_false in Hgt. eexists. split; [reflexivity|].
    simpl. repeat split; intros; lra.
Qed.

(** C6.  For a non-empty challenge list, [showFinalResults] works with the
    arithmetic mean of the challenges' scores: it queues the update that
    shows the mean and the success headline when the mean is strictly above
    90 and the retry headline otherwise, and it logs each challenge name
    with its score, then the mean.  For the scores 100.0, 80.0 and 60.0 the
    mean is 80.0 and the retry headline is chosen. *)
Theorem showFinalResults_mean_and_tier (st prev : ChallengeState) :
  let cs := challenges st in
  let mean := mean_of_scores cs in
  cs <> [] ->
  effects (showFinalResults st) =
    [SetChallengeState (final_updater mean);
     ConsoleLog LogHeader;
     ConsoleLog (LogScoreList (report_lines cs));
     ConsoleLog (LogAverage (toFixed1 mean))] /\
  outcome (showFinalResults st) = Ok tt /\
  (exists st', final_updater mean prev = Ok st' /\
     currentScore st' = ScoreAverage (toFixed1 mean) /\
     challenges st' = challenges prev /\
     (90 < mean ->
      guideMessage st' = MsgAllDonePerfect (toFixed1 mean) /\
      scoreColor st' = "#4CAF50") /\
     (mean <= 90 ->
      guideMessage st' = MsgAllDoneRetry (toFixed1 mean) /\
      scoreColor st' = "#FFC107")) /\
  (score <$> cs = [100; 80; 60] ->
   mean = 80 /\ toFixed1 mean = 800%Z /\
   exists st', final_updater mean prev = Ok st' /\
     guideMessage st' = MsgAllDoneRetry 800).
Proof.
  intros cs mean Hne. split; [|split; [|split]].
  - unfold showFinalResults. fold cs.
    rewrite averageScore_is_mean, scoreList_is_report. reflexivity.
  - reflexivity.
  - apply final_updater_tier.
  - intros Hscores.
    assert (Hmean : mean = 80).
    { unfold mean, mean_of_scores.
      destruct cs as [|c1 [|c2 [|c3 [|c4 cs']]]]; try discriminate Hscores.
      injection Hscores as H1 H2 H3. simpl. rewrite H1, H2, H3. lra. }
    assert (Htenths : toFixed1 mean = 800%Z).
    { rewrite Hmean. replace 80 with (IZR 800 / 10) by lra.
      apply toFixed1_tenths. lia. }
    split; [exact Hmean|]. split; [exact Htenths|].
    destruct (final_updater_tier mean prev) as (st' & Hst' & _ & _ & _ & Hretry).
    exists st'. split; [exact Hst'|].
    rewrite <- Htenths. apply Hretry. lra.
Qed.

Lemma showFinalResults_mean_and_tier_witness :
  mean_of_scores three_scores = 80 /\
  toFixed1 (mean_of_scores three_scores) = 800%Z.
Proof.
  pose (st := {| isPoseFixed := true; isChallengeStarted := true;
                 isInPreparationPhase := false; finalPoseLandmarks := Some [];
                 currentScore := ScoreDashes; guideMessage := MsgPoseFixed;
                 timerDisplay := TimerNull; challenges := three_scores;
                 scoreColor := "#4CAF50" |}).
  destruct (showFinalResults_mean_and_tier st st) as (_ & _ & _ & Hex).
  - discriminate.
  - destruct Hex as (Hmean & Htenths & _); [reflexivity|].
    split; [exact Hmean | exact Htenths].
Defined.

(** ** ChallengeSessionFSM: the frozen data and step 2 of [onResults] *)

Lemma same_frozen_refl (st : ChallengeState) : same_frozen st st.
Proof. split; reflexivity. Qed.

Lemma same_frozen_trans (a b c : ChallengeState) :
  same_frozen a b -> same_frozen b c -> same_frozen a c.
Proof. intros [H1 H2] [H3 H4]. split; congruence. Qed.

(** Step 2 in a render whose pose is fixed and that has nothing frozen yet. *)
Lemma fixPose_fires (cfg : Config) (cs : ChallengeState) (idx : nat)
    (canvasElement : option Canvas) (landmarks : Landmarks) (s : R) :
  isPoseFixed cs = true -> finalPoseLandmarks cs = None ->
  calculateMatchScore cfg (challenges cs) idx canvasElement landmarks = Ok s ->
  effects (fixPose cfg cs idx canvasElement landmarks) =
    [SetChallengeState (finalize_updater idx landmarks s);
     SetTimeout (AdvanceChallenge cs idx) 1000] /\
  outcome (fixPose cfg cs idx canvasElement landmarks) = Ok tt.
Proof.
  intros Hfixed Hnone Hs. unfold fixPose. rewrite Hfixed, Hnone.
  rewrite (bool_decide_false (is_Some None)) by (intros [? [=]]).
  cbv zeta. rewrite Hs. split; reflexivity.
Qed.

(** ** ChallengeSessionFSM: the frames of the component *)

Lemma objects_now_length (closure st : ChallengeState) :
  length (challenges (objects_now closure st)) = length (challenges closure).
Proof. apply length_imap. Qed.

Lemma commit_overlay (drawingUtils : bool) (landmarks : Landmarks)
    (isFixed : bool) (es : list Effect) (st : ChallengeState) :
  commit (overlay drawingUtils landmarks isFixed ++ es) st = commit es st /\
  commit (overlay drawingUtils landmarks isFixed) st = Ok st.
Proof. unfold overlay. destruct drawingUtils; split; reflexivity. Qed.

(** [onResults] of a render in the idle state (timer not started, not
    preparing, pose not fixed, nothing frozen): only the start check and the
    overlay can do anything. *)
Lemma onResults_idle (cfg : Config) (idx : nat) (c : Canvas)
    (drawingUtils : bool) (listener : ChallengeState) (landmarks : Landmarks)
    (accepted : bool) :
  isChallengeStarted listener = false -> isInPreparationPhase listener = false ->
  isPoseFixed listener = false -> finalPoseLandmarks listener = None ->
  isStartPoseAchieved cfg (Some landmarks) = Ok accepted ->
  onResults cfg listener idx (Some c) drawingUtils
    {| poseLandmarks := Some landmarks |}
  = {| effects :=
         (if accepted && bool_decide (idx < length (challenges listener))%nat
          then [SetChallengeState (preparation_updater listener idx);
                SetTimeout (PreparationDone listener) 1500]
          else []) ++ overlay drawingUtils landmarks false;
       outcome := Ok tt |}.
Proof.
  intros Hstarted Hprep Hfixed Hnone Hgate.
  unfold onResults, startCheck, fixPose, drawAndLiveScore,
    startPreparationPhase, overlay. simpl poseLandmarks. cbv zeta.
  rewrite Hstarted, Hprep, Hfixed, Hnone, Hgate.
  destruct (bool_decide (idx < length (challenges listener))%nat),
    accepted, drawingUtils; reflexivity.
Qed.

Lemma preparation_updater_enters (listener st : ChallengeState) (idx : nat)
    (ch : Challenge) :
  challenges listener !! idx = Some ch ->
  preparation_updater listener idx st = Ok (entered_preparation (message ch) st).
Proof. intros Hch. unfold preparation_updater. rewrite Hch. reflexivity. Qed.

(** What the listener of the component does with a detector result. *)
Lemma component_onResults (cfg : Config) (CHALLENGES : list Challenge)
    (canvasElement : option Canvas) (drawingUtils : bool) (results : Results) :
  let listener := initialChallengeState CHALLENGES in
  onResults cfg listener 0 canvasElement drawingUtils results
  = {| effects :=
         match canvasElement, poseLandmarks results with
         | Some _, Some landmarks =>
             (if accepted_frame cfg results
                 && bool_decide (0 < length CHALLENGES)%nat
              then [SetChallengeState (preparation_updater listener 0);
                    SetTimeout (PreparationDone listener) 1500]
              else []) ++ overlay drawingUtils landmarks false
         | _, _ => []
         end;
       outcome := Ok tt |}.
Proof.
  intros listener. destruct canvasElement as [c|]; [|reflexivity].
  destruct results as [[landmarks|]]; [|reflexivity].
  destruct (isStartPoseAchieved_total cfg (Some landmarks)) as [b Hb].
  unfold listener.
  rewrite (onResults_idle cfg 0 c drawingUtils (initialChallengeState CHALLENGES)
             landmarks b) by (reflexivity || exact Hb).
  unfold accepted_frame. cbn [poseLandmarks]. rewrite Hb. reflexivity.
Qed.

(** The state a frame of the component leaves. *)
Lemma component_frame_result (cfg : Config) (CHALLENGES : list Challenge)
    (canvasElement : option Canvas) (drawingUtils : bool)
    (st : ChallengeState) (results : Results) :
  component_frame cfg CHALLENGES canvasElement drawingUtils st results
  = Ok (match canvasElement, CHALLENGES !! 0%nat with
        | Some _, Some ch =>
            if accepted_frame cfg results
            then entered_preparation (message ch) st
            else st
        | _, _ => st
        end).
Proof.
  unfold component_frame, deliver_frame. rewrite component_onResults.
  simpl effects.
  destruct canvasElement as [c|]; [|reflexivity].
  destruct results as [[landmarks|]];
    [|destruct (CHALLENGES !! 0%nat); reflexivity].
  simpl poseLandmarks.
  destruct CHALLENGES as [|ch rest].
  - rewrite andb_false_r. simpl. apply (proj2 (commit_overlay _ _ _ [] _)).
  - rewrite (bool_decide_true (0 < length (ch :: rest))%nat) by (simpl; lia).
    rewrite andb_true_r.
    destruct (accepted_frame cfg {| poseLandmarks := Some landmarks |});
      simpl; apply (proj2 (commit_overlay _ _ _ [] _)).
Qed.

(** A run of frames of the component commits, and keeps whatever entering
    the preparation phase keeps. *)
Lemma component_frames_preserve {A : Type} (f : ChallengeState -> A)
    (cfg : Config) (CHALLENGES : list Challenge)
    (canvasElement : option Canvas) (drawingUtils : bool)
    (frames : list Results) (st : ChallengeState) :
  (forall m a, f (entered_preparation m a) = f a) ->
  exists st',
    component_frames cfg CHALLENGES canvasElement drawingUtils st frames = Ok st' /\
    f st' = f st.
Proof.
  intros Hf. revert st. induction frames as [|results frames IH]; intros st.
  - exists st. split; reflexivity.
  - simpl. rewrite component_frame_result. simpl.
    match goal with
    | |- exists st', component_frames _ _ _ _ ?s _ = _ /\ _ =>
        destruct (IH s) as (st' & Hrun & Hkeep)
    end.
    exists st'. split; [exact Hrun|]. rewrite Hkeep.
    destruct canvasElement; [|reflexivity].
    destruct (CHALLENGES !! 0%nat); [|reflexivity].
    destruct (accepted_frame cfg results); [apply Hf | reflexivity].
Qed.

(** The state a run of frames of the component leaves. *)
Lemma component_frames_result (cfg : Config) (CHALLENGES : list Challenge)
    (canvasElement : option Canvas) (drawingUtils : bool)
    (frames : list Results) (st : ChallengeState) :
  component_frames cfg CHALLENGES canvasElement drawingUtils st frames
  = Ok (match canvasElement, CHALLENGES !! 0%nat with
        | Some _, Some ch =>
            if existsb (accepted_frame cfg) frames
            then entered_preparation (message ch) st
            else st
        | _, _ => st
        end).
Proof.
  revert st. induction frames as [|results frames IH]; intros st.
  - simpl. destruct canvasElement; [|reflexivity].
    destruct (CHALLENGES !! 0%nat); reflexivity.
  - cbn [component_frames existsb]. rewrite component_frame_result.
    cbn [mbind result_bind]. rewrite IH.
    destruct canvasElement; [|reflexivity].
    destruct (CHALLENGES !! 0%nat); [|reflexivity].
    destruct (accepted_frame cfg results), (existsb (accepted_frame cfg) frames);
      reflexivity.
Qed.

Lemma component_onResults_no_advance (cfg : Config) (CHALLENGES : list Challenge)
    (canvasElement : option Canvas) (drawingUtils : bool) (results : Results)
    (e : Effect) :
  In e (effects (onResults cfg (initialChallengeState CHALLENGES) 0
                   canvasElement drawingUtils results)) ->
  is_advance e = false.
Proof.
  rewrite component_onResults. simpl effects.
  destruct canvasElement; [|intros []].
  destruct (poseLandmarks results) as [landmarks|]; [|intros []].
  intros Hin. apply in_app_or in Hin as [Hin | Hin].
  - destruct (_ && _); [|destruct Hin].
    destruct Hin as [<- | [<- | []]]; reflexivity.
  - unfold overlay in Hin. destruct drawingUtils; [|destruct Hin].
    destruct Hin as [<- | []]. reflexivity.
Qed.

Lemma arms_up_accepted_frame :
  accepted_frame example_config {| poseLandmarks := Some (arms_up 1 1) |} = true.
Proof.
  unfold accepted_frame. cbn [poseLandmarks].
  rewrite arms_up_accepted. reflexivity.
Qed.

(** C2.  The frames of the component never finalize.  The detector was
    given the [onResults] of the first render and keeps it, so the guard of
    step 2, [isPoseFixed && !finalPoseLandmarks], is evaluated on the first
    render, where [isPoseFixed] is false.  Whatever the committed state, in
    particular once the timer has fixed the pose, a run of frames commits,
    writes no score, freezes no skeleton and queues no advance.  Ten frames
    with both arms raised, handled in the Fixed phase, leave the score at
    its initial 0 and only put the preparation message back, while step 2
    of the render that holds the Fixed state, had it been called, would
    have queued the score 100 and the advance.  [onFrame] of that render
    sends nothing; [onFrame] of the first render sends. *)
Theorem registered_listener_never_finalizes (cfg : Config)
    (CHALLENGES : list Challenge) (canvasElement : option Canvas)
    (drawingUtils : bool) (st : ChallengeState) (frames : list Results) :
  (forall results e,
     In e (effects (onResults cfg (initialChallengeState CHALLENGES) 0
                      canvasElement drawingUtils results)) ->
     is_advance e = false) /\
  (exists st',
     component_frames cfg CHALLENGES canvasElement drawingUtils st frames
       = Ok st' /\
     challenges st' = challenges st /\
     finalPoseLandmarks st' = finalPoseLandmarks st /\
     isPoseFixed st' = isPoseFixed st) /\
  component_frames example_config [arm_challenge (Some ["LEFT_WRIST"])]
    (Some canvas_480) true fixed_state
    (replicate 10 {| poseLandmarks := Some (arms_up 1 1) |})
  = Ok (entered_preparation "raise the arm" fixed_state) /\
  effects (fixPose example_config fixed_state 0 (Some canvas_480) (arms_up 1 1))
  = [SetChallengeState (finalize_updater 0 (arms_up 1 1) 100);
     SetTimeout (AdvanceChallenge fixed_state 0) 1000] /\
  effects (onFrame fixed_state true) = [] /\
  effects (onFrame (initialChallengeState CHALLENGES) true) = [PoseSend].
Proof.
  split; [|split; [|split; [|split; [|split; reflexivity]]]];
    [| | |apply fixPose_fires;
          [reflexivity | reflexivity | exact arm_score_on_target]].
  - intros results e. apply component_onResults_no_advance.
  - destruct (component_frames_preserve
                (fun a => (challenges a, finalPoseLandmarks a, isPoseFixed a))
                cfg CHALLENGES canvasElement drawingUtils frames st)
      as (st' & Hrun & Hkeep); [reflexivity|].
    exists st'. split; [exact Hrun|].
    injection Hkeep as Hc Hf Hp. repeat split; assumption.
  - rewrite component_frames_result. cbn [replicate existsb].
    rewrite arms_up_accepted_frame. reflexivity.
Qed.

Lemma registered_listener_never_finalizes_witness :
  In (SetTimeout
        (PreparationDone
           (initialChallengeState [arm_challenge (Some ["LEFT_WRIST"])])) 1500)
     (effects (onResults example_config
                 (initialChallengeState [arm_challenge (Some ["LEFT_WRIST"])]) 0
                 (Some canvas_480) true
                 {| poseLandmarks := Some (arms_up 1 1) |})) /\
  is_advance
    (SetTimeout
       (PreparationDone
          (initialChallengeState [arm_challenge (Some ["LEFT_WRIST"])])) 1500)
  = false.
Proof.
  assert (Hin :
    In (SetTimeout
          (PreparationDone
             (initialChallengeState [arm_challenge (Some ["LEFT_WRIST"])])) 1500)
       (effects (onResults example_config
                   (initialChallengeState [arm_challenge (Some ["LEFT_WRIST"])]) 0
                   (Some canvas_480) true
                   {| poseLandmarks := Some (arms_up 1 1) |}))).
  { rewrite component_onResults. cbn [effects poseLandmarks].
    rewrite arms_up_accepted_frame. right. left. reflexivity. }
  split; [exact Hin|].
  destruct (registered_listener_never_finalizes example_config
              [arm_challenge (Some ["LEFT_WRIST"])] (Some canvas_480) true
              fixed_state []) as [Hno _].
  apply (Hno _ _ Hin).
Defined.

(** ** ChallengeSessionFSM: the challenge timer *)

Lemma elapsed_countdown (startTime now : Z) :
  (0 <= now - startTime < 3000)%Z ->
  (0 <= (now - startTime) / 1000 < 3)%Z.
Proof.
  intros [Hlo Hhi]. split.
  - apply Z.div_pos; lia.
  - apply Z.div_lt_upper_bound; lia.
Qed.

Lemma elapsed_hold (startTime now : Z) :
  (3000 <= now - startTime < 8000)%Z ->
  (3 <= (now - startTime) / 1000 < 8)%Z.
Proof.
  intros [Hlo Hhi]. split.
  - apply Z.div_le_lower_bound; lia.
  - apply Z.div_lt_upper_bound; lia.
Qed.

Lemma elapsed_fixed (startTime now : Z) :
  (8000 <= now - startTime)%Z -> (8 <= (now - startTime) / 1000)%Z.
Proof. intros Hlo. apply Z.div_le_lower_bound; lia. Qed.

Lemma timerTick_countdown (startTime now : Z) :
  (0 <= now - startTime < 3000)%Z ->
  let remaining := (3 - (now - startTime) / 1000)%Z in
  timerTick startTime now =
  emit (SetChallengeState
          (timer_updater false (TimerSeconds remaining) (MsgCountdown remaining))).
Proof.
  intros Ht remaining. apply elapsed_countdown in Ht.
  unfold timerTick, COUNTDOWN_SECONDS. cbv zeta.
  rewrite bool_decide_true by lia. reflexivity.
Qed.

Lemma timerTick_hold (startTime now : Z) :
  (3000 <= now - startTime < 8000)%Z ->
  timerTick startTime now =
  emit (SetChallengeState
          (timer_updater false TimerGo
             (MsgHold ((now - startTime) / 1000 - 3 + 1) 5))).
Proof.
  intros Ht. apply elapsed_hold in Ht.
  unfold timerTick, COUNTDOWN_SECONDS, HOLD_SECONDS. cbv zeta.
  rewrite bool_decide_false by lia. rewrite bool_decide_true by lia. reflexivity.
Qed.

Lemma timerTick_fixed (startTime now : Z) :
  (8000 <= now - startTime)%Z ->
  effects (timerTick startTime now) =
  [ClearInterval; SetChallengeState (timer_updater true TimerNull MsgPoseFixed)].
Proof.
  intros Ht. apply elapsed_fixed in Ht.
  unfold timerTick, COUNTDOWN_SECONDS, HOLD_SECONDS. cbv zeta.
  rewrite !bool_decide_false by lia. reflexivity.
Qed.

(** [onResults] of a render whose timer is started and whose pose is not
    fixed yet: the overlay and the real-time score. *)
Lemma onResults_started (cfg : Config) (idx : nat) (c : Canvas)
    (drawingUtils : bool) (st : ChallengeState) (landmarks : Landmarks) (s : R) :
  isChallengeStarted st = true -> isPoseFixed st = false ->
  finalPoseLandmarks st = None ->
  calculateMatchScore cfg (challenges st) idx (Some c) landmarks = Ok s ->
  onResults cfg st idx (Some c) drawingUtils {| poseLandmarks := Some landmarks |}
  = {| effects := overlay drawingUtils landmarks false
                  ++ [SetChallengeState (live_updater s)];
       outcome := Ok tt |}.
Proof.
  intros Hstarted Hfixed Hnone Hs.
  unfold onResults, startCheck, fixPose, drawAndLiveScore, overlay.
  cbn [poseLandmarks]. cbv zeta.
  rewrite Hstarted, Hfixed, Hnone, Hs.
  rewrite (bool_decide_false (is_Some None)) by (intros [? [=]]).
  destruct drawingUtils; reflexivity.
Qed.

(** C5.  The timing holds.  A timer started at [startTime] is an interval
    of 1000 ms whose tick, firing [t] ms later, shows the countdown for [t]
    in [0,3000), shows GO for [t] in [3000,8000) and, from [t] = 8000 on,
    sets [isPoseFixed] and cancels the interval; before that the ticks
    leave [isPoseFixed], [isChallengeStarted], the frozen skeleton and the
    scores alone.  The frames of the hold are not scored, though.  The
    detector calls the [onResults] of the first render, in which
    [isChallengeStarted] is false, so the guard of the real-time score,
    [!finalPoseLandmarks && isChallengeStarted], never holds: whatever the
    committed state, a run of frames commits and leaves the displayed
    score, its colour, the started flag and the timer display as they
    were.  On the started session of the example the [onResults] of the
    render that holds the state would queue the score 100 for a frame with
    both arms raised; the frame the component handles only enters the
    preparation phase again. *)
Theorem hold_frames_are_not_scored (cfg : Config) (CHALLENGES : list Challenge)
    (canvasElement : option Canvas) (drawingUtils : bool)
    (st : ChallengeState) (frames : list Results) (startTime now : Z) :
  let t := (now - startTime)%Z in
  (isChallengeStarted st = false ->
   effects (startChallengeTimer st startTime) =
     [SetChallengeState started_updater; SetInterval (TimerTick startTime) 1000] /\
   exists st', started_updater st = Ok st' /\ isChallengeStarted st' = true /\
     isPoseFixed st' = isPoseFixed st) /\
  ((0 <= t < 3000)%Z ->
   ~ In ClearInterval (effects (timerTick startTime now)) /\
   exists st', process_tick startTime now st = Ok st' /\
     timerDisplay st' = TimerSeconds (3 - t / 1000) /\
     guideMessage st' = MsgCountdown (3 - t / 1000) /\
     isPoseFixed st' = isPoseFixed st /\
     isChallengeStarted st' = isChallengeStarted st /\
     same_frozen st st') /\
  ((3000 <= t < 8000)%Z ->
   ~ In ClearInterval (effects (timerTick startTime now)) /\
   exists st', process_tick startTime now st = Ok st' /\
     timerDisplay st' = TimerGo /\
     guideMessage st' = MsgHold (t / 1000 - 3 + 1) 5 /\
     isPoseFixed st' = isPoseFixed st /\
     isChallengeStarted st' = isChallengeStarted st /\
     same_frozen st st') /\
  ((8000 <= t)%Z ->
   In ClearInterval (effects (timerTick startTime now)) /\
   exists st', process_tick startTime now st = Ok st' /\
     isPoseFixed st' = true /\
     timerDisplay st' = TimerNull /\
     guideMessage st' = MsgPoseFixed /\
     same_frozen st st') /\
  (exists st',
     component_frames cfg CHALLENGES canvasElement drawingUtils st frames
       = Ok st' /\
     currentScore st' = currentScore st /\
     scoreColor st' = scoreColor st /\
     isChallengeStarted st' = isChallengeStarted st /\
     timerDisplay st' = timerDisplay st) /\
  effects (onResults example_config started_state 0 (Some canvas_480) true
             {| poseLandmarks := Some (arms_up 1 1) |})
  = [DrawPose (arms_up 1 1) "#00FF00" "#FF0000";
     SetChallengeState (live_updater 100)] /\
  component_frame example_config [arm_challenge (Some ["LEFT_WRIST"])]
    (Some canvas_480) true started_state
    {| poseLandmarks := Some (arms_up 1 1) |}
  = Ok (entered_preparation "raise the arm" started_state).
Proof.
  intros t. split; [|split; [|split; [|split; [|split; [|split]]]]].
  - intros Hnot. unfold startChallengeTimer. rewrite Hnot.
    split; [reflexivity|]. eexists. split; [reflexivity|]. split; reflexivity.
  - intros Ht. unfold process_tick. rewrite (timerTick_countdown _ _ Ht).
    split; [simpl; intros [[=]|[]]|].
    eexists. split; [reflexivity|]. simpl. repeat split; reflexivity.
  - intros Ht. unfold process_tick. rewrite (timerTick_hold _ _ Ht).
    split; [simpl; intros [[=]|[]]|].
    eexists. split; [reflexivity|]. simpl. repeat split; reflexivity.
  - intros Ht. unfold process_tick. rewrite (timerTick_fixed _ _ Ht).
    split; [left; reflexivity|].
    eexists. split; [reflexivity|]. simpl. repeat split; reflexivity.
  - destruct (component_frames_preserve
                (fun a => (currentScore a, scoreColor a, isChallengeStarted a,
                           timerDisplay a))
                cfg CHALLENGES canvasElement drawingUtils frames st)
      as (st' & Hrun & Hkeep); [reflexivity|].
    exists st'. split; [exact Hrun|].
    injection Hkeep as Hs Hc Hst Ht. repeat split; assumption.
  - rewrite (onResults_started example_config 0 canvas_480 true started_state
               (arms_up 1 1) 100);
      [reflexivity | reflexivity | reflexivity | reflexivity |
       exact arm_score_on_target].
  - rewrite component_frame_result. cbn [lookup list_lookup].
    rewrite arms_up_accepted_frame. reflexivity.
Qed.

Lemma hold_frames_are_not_scored_witness :
  effects (startChallengeTimer idle_state 0)
  = [SetChallengeState started_updater; SetInterval (TimerTick 0) 1000] /\
  (exists st', process_tick 0 2999 started_state = Ok st' /\
     timerDisplay st' = TimerSeconds 1 /\ isPoseFixed st' = false) /\
  (exists st', process_tick 0 3000 started_state = Ok st' /\
     timerDisplay st' = TimerGo /\ isPoseFixed st' = false) /\
  (exists st', process_tick 0 7999 started_state = Ok st' /\
     timerDisplay st' = TimerGo /\ isPoseFixed st' = false) /\
  (exists st', process_tick 0 8000 started_state = Ok st' /\
     isPoseFixed st' = true).
Proof.
  split; [|split; [|split; [|split]]].
  - destruct (hold_frames_are_not_scored example_config [] None false
                idle_state [] 0 0) as (Hstart & _).
    destruct Hstart as [Heff _]; [reflexivity | exact Heff].
  - destruct (hold_frames_are_not_scored example_config [] None false
                started_state [] 0 2999) as (_ & Hcount & _).
    destruct Hcount as (_ & st' & Hst' & Hd & _ & Hf & _); [simpl; lia|].
    exists st'. split; [exact Hst'|]. split; [exact Hd | exact Hf].
  - destruct (hold_frames_are_not_scored example_config [] None false
                started_state [] 0 3000) as (_ & _ & Hhold & _).
    destruct Hhold as (_ & st' & Hst' & Hd & _ & Hf & _); [simpl; lia|].
    exists st'. split; [exact Hst'|]. split; [exact Hd | exact Hf].
  - destruct (hold_frames_are_not_scored example_config [] None false
                started_state [] 0 7999) as (_ & _ & Hhold & _).
    destruct Hhold as (_ & st' & Hst' & Hd & _ & Hf & _); [simpl; lia|].
    exists st'. split; [exact Hst'|]. split; [exact Hd | exact Hf].
  - destruct (hold_frames_are_not_scored example_config [] None false
                started_state [] 0 8000) as (_ & _ & _ & Hfix & _).
    destruct Hfix as (_ & st' & Hst' & Hf & _); [simpl; lia|].
    exists st'. split; [exact Hst' | exact Hf].
Defined.

(** * Further properties of the component *)

(** ** ScoreEvaluator: the side of an ARM challenge *)

Lemma prefix_append (sub s : string) :
  String.prefix sub s = true <-> exists post, s = String.append sub post.
Proof.
  revert s. induction sub as [|a sub IH]; intros s.
  - split; [intros _; exists s; reflexivity | intros _; destruct s; reflexivity].
  - destruct s as [|b s]; simpl.
    + split; [discriminate | intros [post [=]]].
    + destruct (Ascii.ascii_dec a b) as [<- | Hne].
      * rewrite IH. split.
        -- intros [post ->]. exists post. reflexivity.
        -- intros [post [= ->]]. exists post. reflexivity.
      * split; [discriminate|]. intros [post [= Hab _]]. congruence.
Qed.

(** [includes] finds its argument anywhere in the string. *)
Lemma includes_substring (s sub : string) :
  includes s sub = true <->
  exists pre post, s = String.append pre (String.append sub post).
Proof.
  induction s as [|a s IH].
  - change (includes EmptyString sub)
      with (String.prefix sub EmptyString || false).
    rewrite orb_false_r, prefix_append. split.
    + intros [post Hs]. exists EmptyString, post. exact Hs.
    + intros ([|b pre] & post & Hs); [exists post; exact Hs | discriminate Hs].
  - change (includes (String a s) sub)
      with (String.prefix sub (String a s) || includes s sub).
    rewrite orb_true_iff, prefix_append, IH. split.
    + intros [[post Hs] | (pre & post & Hs)].
      * exists EmptyString, post. exact Hs.
      * exists (String a pre), post. simpl. rewrite Hs. reflexivity.
    + intros ([|b pre] & post & Hs).
      * left. exists post. exact Hs.
      * right. simpl in Hs. injection Hs as _ Hs. exists pre, post. exact Hs.
Qed.

(** X3.  For an ARM challenge the side is read off the first evaluation
    joint only: it is LEFT exactly when that name contains the letter L
    somewhere, RIGHT otherwise, and the call raises exactly when there is
    no first joint. *)
Theorem arm_side_letter_L (ch : Challenge) :
  (arm_side ch = Ok LEFT <->
   exists pre post rest,
     evalJoints ch = Some (String.append pre (String.append "L" post) :: rest)) /\
  (arm_side ch = Ok RIGHT <->
   exists joint rest,
     evalJoints ch = Some (joint :: rest) /\
     ~ exists pre post, joint = String.append pre (String.append "L" post)) /\
  (arm_side ch = Throw TypeError <->
   evalJoints ch = None \/ evalJoints ch = Some []).
Proof.
  unfold arm_side.
  destruct (evalJoints ch) as [[|joint rest]|]; simpl.
  - split; [|split].
    + split; [discriminate | intros (? & ? & ? & [=])].
    + split; [discriminate | intros (? & ? & [=] & _)].
    + split; [intros _; right; reflexivity | reflexivity].
  - pose proof (includes_substring joint "L") as Hinc.
    destruct (includes joint "L") eqn:Hl; split; [|split| |split].
    + split; [|reflexivity]. intros _.
      destruct (proj1 Hinc eq_refl) as (pre & post & ->).
      exists pre, post, rest. reflexivity.
    + split; [discriminate|]. intros (j & r & [= <- <-] & Hno).
      exfalso. apply Hno. apply Hinc. reflexivity.
    + split; [discriminate | intros [[=] | [=]]].
    + split; [discriminate|]. intros (pre & post & r & [= -> <-]).
      assert (true = false) as [=]. rewrite <- Hl. symmetry.
      apply includes_substring. exists pre, post. reflexivity.
    + split; [|reflexivity]. intros _. exists joint, rest.
      split; [reflexivity|]. intros Hex. apply Hinc in Hex. discriminate.
    + split; [discriminate | intros [[=] | [=]]].
  - split; [|split].
    + split; [discriminate | intros (? & ? & ? & [=])].
    + split; [discriminate | intros (? & ? & [=] & _)].
    + split; [intros _; left; reflexivity | reflexivity].
Qed.

Lemma arm_side_letter_L_witness :
  arm_side (arm_challenge (Some ["RIGHT_ELBOW"; "RIGHT_WRIST"])) = Ok LEFT /\
  arm_side (arm_challenge (Some ["RIGHT_WRIST"; "LEFT_ELBOW"])) = Ok RIGHT.
Proof.
  split.
  - apply (arm_side_letter_L (arm_challenge (Some ["RIGHT_ELBOW"; "RIGHT_WRIST"]))).
    exists "RIGHT_E", "BOW", ["RIGHT_WRIST"]. reflexivity.
  - apply (arm_side_letter_L (arm_challenge (Some ["RIGHT_WRIST"; "LEFT_ELBOW"]))).
    exists "RIGHT_WRIST", ["LEFT_ELBOW"]. split; [reflexivity|].
    intros Hex. apply includes_substring in Hex. discriminate Hex.
Defined.

(** ** ScoreEvaluator: when the evaluator answers *)

Lemma side_landmarks_evaluated (L : LandmarkIndices) (side : Side) :
  In (side_SHOULDER L side) (evaluatedLandmarks L) /\
  In (side_ELBOW L side) (evaluatedLandmarks L) /\
  In (side_WRIST L side) (evaluatedLandmarks L) /\
  In (side_HIP L side) (evaluatedLandmarks L).
Proof. destruct side; simpl; tauto. Qed.

(** X4.  The evaluator returns a number, never raising, as soon as the
    skeleton has an entry at each of the ten landmark indices it can read
    and an ARM challenge has at least one evaluation joint. *)
Theorem calculateMatchScore_answers (cfg : Config) (cs : list Challenge)
    (idx : nat) (canvasElement : option Canvas) (landmarks : Landmarks) :
  (forall i, In i (evaluatedLandmarks (LANDMARK_INDICES cfg)) ->
             is_Some (at_index landmarks i)) ->
  (forall ch, cs !! idx = Some ch -> targetType ch = "ARM" ->
              exists joint rest, evalJoints ch = Some (joint :: rest)) ->
  exists s, calculateMatchScore cfg cs idx canvasElement landmarks = Ok s.
Proof.
  intros Hlm Hjoints. set (L := LANDMARK_INDICES cfg) in *.
  destruct (cs !! idx) as [ch|] eqn:Hch;
    [|exists 0; unfold calculateMatchScore; rewrite Hch; reflexivity].
  destruct (decide (targetType ch = "ARM")) as [Harm | Harm].
  - destruct (Hjoints ch eq_refl Harm) as (joint & rest & Hj).
    pose proof (arm_side_first_joint ch joint rest Hj) as Hside.
    set (side := if includes joint "L" then LEFT else RIGHT) in Hside.
    destruct (side_landmarks_evaluated L side) as (HS & HE & HW & HH).
    destruct (Hlm _ HS) as [pS HpS]. destruct (Hlm _ HE) as [pE HpE].
    destruct (Hlm _ HW) as [pW HpW]. destruct (Hlm _ HH) as [pH HpH].
    rewrite (calculateMatchScore_arm cfg cs idx canvasElement landmarks
               ch side pS pE pW pH) by assumption.
    destruct (_ || _ || _ || _); eexists; reflexivity.
  - destruct (decide (targetType ch = "LEG_BALANCE")) as [Hleg | Hleg].
    + destruct (Hlm (RIGHT_KNEE L)) as [pK HpK]; [simpl; tauto|].
      destruct (Hlm (RIGHT_ANKLE L)) as [pA HpA]; [simpl; tauto|].
      destruct (Hlm (RIGHT_HIP L)) as [pRH HpRH]; [simpl; tauto|].
      destruct (Hlm (LEFT_HIP L)) as [pLH HpLH]; [simpl; tauto|].
      rewrite (calculateMatchScore_leg cfg cs idx canvasElement landmarks
                 ch pK pA pRH pLH) by assumption.
      destruct (_ || _ || _ || _); eexists; reflexivity.
    + exists 0. apply (calculateMatchScore_unsupported cfg cs idx canvasElement
                         landmarks ch); assumption.
Qed.

Lemma calculateMatchScore_answers_witness :
  exists s,
    calculateMatchScore example_config [leg_challenge] 0 None (arms_up 1 1) = Ok s.
Proof.
  apply (calculateMatchScore_answers example_config [leg_challenge] 0 None
           (arms_up 1 1)).
  - intros i Hi. rewrite arms_up_at; [eexists; reflexivity|].
    simpl in Hi. repeat destruct Hi as [<- | Hi]; try contradiction; simpl; lia.
  - intros ch [= <-] [=].
Defined.

(** X5.  The evaluator answers 0, without raising, when the challenge index
    is out of range, when the challenge type is neither ARM nor LEG_BALANCE
    (whatever the skeleton), and, because the visibility checks stop at the
    first low landmark, when the shoulder of an ARM challenge or the right
    knee of a LEG_BALANCE challenge is present with visibility below 0.7,
    even if the landmarks checked after it are missing. *)
Theorem calculateMatchScore_zero_cases (cfg : Config) (cs : list Challenge)
    (idx : nat) (canvasElement : option Canvas) (landmarks : Landmarks) :
  let L := LANDMARK_INDICES cfg in
  (cs !! idx = None ->
   calculateMatchScore cfg cs idx canvasElement landmarks = Ok 0) /\
  (forall ch, cs !! idx = Some ch ->
     targetType ch <> "ARM" -> targetType ch <> "LEG_BALANCE" ->
     calculateMatchScore cfg cs idx canvasElement landmarks = Ok 0) /\
  (forall ch side p, cs !! idx = Some ch ->
     targetType ch = "ARM" -> arm_side ch = Ok side ->
     at_index landmarks (side_SHOULDER L side) = Some p -> visibility p < 0.7 ->
     calculateMatchScore cfg cs idx canvasElement landmarks = Ok 0) /\
  (forall ch p, cs !! idx = Some ch ->
     targetType ch = "LEG_BALANCE" ->
     at_index landmarks (RIGHT_KNEE L) = Some p -> visibility p < 0.7 ->
     calculateMatchScore cfg cs idx canvasElement landmarks = Ok 0).
Proof.
  intros L. split; [|split; [|split]].
  - intros Hnone. unfold calculateMatchScore. rewrite Hnone. reflexivity.
  - intros ch Hch Harm Hleg.
    apply (calculateMatchScore_unsupported cfg cs idx canvasElement landmarks ch);
      assumption.
  - intros ch side p Hch Hty Hside Hp Hlow.
    unfold calculateMatchScore; cbv zeta. fold L.
    rewrite Hch, (bool_decide_true _ Hty), Hside. simpl.
    rewrite (low_visibility_at _ _ _ Hp), (bool_decide_true _ Hlow).
    reflexivity.
  - intros ch p Hch Hty Hp Hlow.
    unfold calculateMatchScore; cbv zeta. fold L.
    rewrite Hch, Hty.
    rewrite (bool_decide_false ("LEG_BALANCE" = "ARM")) by discriminate.
    rewrite (bool_decide_true ("LEG_BALANCE" = "LEG_BALANCE")) by reflexivity.
    rewrite (low_visibility_at _ _ _ Hp), (bool_decide_true _ Hlow).
    reflexivity.
Qed.

Lemma calculateMatchScore_zero_cases_witness :
  calculateMatchScore example_config [arm_challenge (Some ["LEFT_ELBOW"])] 0
    None shoulder_only = Ok 0 /\
  calculateMatchScore example_config [arm_challenge (Some ["LEFT_ELBOW"])] 1
    None shoulder_only = Ok 0.
Proof.
  destruct (calculateMatchScore_zero_cases example_config
              [arm_challenge (Some ["LEFT_ELBOW"])] 0 None shoulder_only)
    as (_ & _ & Hlow & _).
  destruct (calculateMatchScore_zero_cases example_config
              [arm_challenge (Some ["LEFT_ELBOW"])] 1 None shoulder_only)
    as (Hout & _).
  split.
  - apply (Hlow (arm_challenge (Some ["LEFT_ELBOW"])) LEFT
             (point (1/2) (1/2) (1/10))); try reflexivity. simpl. lra.
  - apply Hout. reflexivity.
Defined.

(** ** ScoreEvaluator: trunk tilt and hip levelness *)

(** Decides, one after the other, the comparisons met in the goal. *)
Ltac decide_comparisons :=
  repeat (first [ rewrite bool_decide_true by lra
                | rewrite bool_decide_false by lra ]; cbv iota).

Lemma atan_sign (r : R) :
  - (PI / 2) < atan r < PI / 2 /\
  (0 < r -> 0 < atan r) /\ (r <= 0 -> atan r <= 0).
Proof.
  pose proof (atan_bound r) as Hb. split; [lra|]. split.
  - intros Hr. rewrite <- atan_0. apply atan_increasing. exact Hr.
  - intros [Hr | ->]; [|rewrite atan_0; lra].
    rewrite <- atan_0. left. apply atan_increasing. exact Hr.
Qed.

Lemma quotient_sign (a b : R) :
  b <> 0 ->
  (0 < a -> 0 < b -> 0 < a / b) /\ (a < 0 -> b < 0 -> 0 < a / b) /\
  (a <= 0 -> 0 < b -> a / b <= 0) /\ (0 <= a -> b < 0 -> a / b <= 0).
Proof.
  intros Hb. unfold Rdiv. repeat split; intros Ha Hb'.
  - pose proof (Rinv_0_lt_compat b Hb'). nra.
  - pose proof (Rinv_lt_0_compat b Hb'). nra.
  - pose proof (Rinv_0_lt_compat b Hb'). nra.
  - pose proof (Rinv_lt_0_compat b Hb'). nra.
Qed.

(** [Math.atan2] answers in [-PI, PI], and turning the segment around turns
    the unsigned angle into its supplement. *)
Lemma atan2_abs (a b : R) :
  0 <= Rabs (atan2 a b) <= PI /\
  (a <> 0 \/ b <> 0 -> Rabs (atan2 (- a) (- b)) = PI - Rabs (atan2 a b)).
Proof.
  pose proof PI_RGT_0 as Hpi.
  destruct (Req_dec_T b 0) as [-> | Hb].
  - replace (- 0) with 0 by ring. unfold atan2.
    destruct (Rtotal_order a 0) as [Ha | [-> | Ha]].
    + decide_comparisons. rewrite Rabs_left by lra.
      rewrite (Rabs_right (PI / 2)) by lra.
      split; [lra | intros _; lra].
    + replace (- 0) with 0 by ring. decide_comparisons. rewrite Rabs_R0.
      split; [lra | intros [H | H]; exfalso; apply H; reflexivity].
    + decide_comparisons. rewrite (Rabs_right (PI / 2)) by lra.
      rewrite Rabs_left by lra. split; [lra | intros _; lra].
  - destruct (quotient_sign a b Hb) as (Hpp & Hnn & Hnp & Hpn).
    destruct (atan_sign (a / b)) as (Hbound & Hpos & Hneg).
    unfold atan2.
    replace (- a / - b) with (a / b) by (field; exact Hb).
    set (t := atan (a / b)) in *.
    destruct (Rtotal_order b 0) as [Hb' | [Hb' | Hb']]; [|contradiction|].
    + destruct (Rlt_dec a 0) as [Ha | Ha].
      * specialize (Hpos (Hnn Ha Hb')). decide_comparisons.
        rewrite (Rabs_left (t - PI)) by lra. rewrite (Rabs_right t) by lra.
        split; [lra | intros _; lra].
      * assert (Ha0 : 0 <= a) by lra. specialize (Hneg (Hpn Ha0 Hb')).
        decide_comparisons.
        rewrite (Rabs_right (t + PI)) by lra.
        destruct (Req_dec_T t 0) as [Ht | Ht].
        -- rewrite Ht, Rabs_R0. split; [lra | intros _; lra].
        -- rewrite (Rabs_left t) by lra. split; [lra | intros _; lra].
    + destruct (Rlt_dec 0 a) as [Ha | Ha].
      * specialize (Hpos (Hpp Ha Hb')). decide_comparisons.
        rewrite (Rabs_right t) by lra. rewrite (Rabs_left (t - PI)) by lra.
        split; [lra | intros _; lra].
      * assert (Ha0 : a <= 0) by lra. specialize (Hneg (Hnp Ha0 Hb')).
        decide_comparisons.
        rewrite (Rabs_right (t + PI)) by lra.
        destruct (Req_dec_T t 0) as [Ht | Ht].
        -- rewrite Ht, Rabs_R0. split; [lra | intros _; lra].
        -- rewrite (Rabs_left t) by lra. split; [lra | intros _; lra].
Qed.

Lemma degrees_abs (r : R) : Rabs (r * (180 / PI)) = Rabs r * (180 / PI).
Proof.
  pose proof PI_RGT_0 as Hpi.
  assert (Hd : 0 < 180 / PI) by (apply Rdiv_lt_0_compat; lra).
  rewrite Rabs_mult, (Rabs_right (180 / PI)) by lra. reflexivity.
Qed.

Lemma fold_supplement (v : R) :
  0 <= v <= 180 ->
  Rmin v (Rabs (180 - v)) = Rmin v (180 - v) /\
  0 <= Rmin v (180 - v) <= 90.
Proof.
  intros Hv. rewrite (Rabs_right (180 - v)) by lra. split; [reflexivity|].
  unfold Rmin. destruct (Rle_dec v (180 - v)); lra.
Qed.

Lemma vertical_angle_range (a b : R) :
  0 <= Rabs (atan2 a b) * (180 / PI) <= 180.
Proof.
  pose proof PI_RGT_0 as Hpi.
  destruct (atan2_abs a b) as [[Hlo Hhi] _].
  assert (Hd : 0 < 180 / PI) by (apply Rdiv_lt_0_compat; lra).
  split; [nra|].
  replace 180 with (PI * (180 / PI)) at 2 by (field; lra).
  apply Rmult_le_compat_r; lra.
Qed.

(** X6.  The tilt deviation of the hip-knee segment lies between 0 and 90
    degrees, is the same whichever end of the segment is taken first, is 0
    when the two landmarks are on one vertical line (hip above or below the
    knee) and 90 when they are on one horizontal line. *)
Theorem tiltDiff_folded (R_H R_K : Point) :
  0 <= tiltDiff R_H R_K <= 90 /\
  tiltDiff R_K R_H = tiltDiff R_H R_K /\
  (x R_H = x R_K -> tiltDiff R_H R_K = 0) /\
  (y R_H = y R_K -> x R_H <> x R_K -> tiltDiff R_H R_K = 90).
Proof.
  pose proof PI_RGT_0 as Hpi.
  unfold tiltDiff; cbv zeta. rewrite !degrees_abs.
  set (a := x R_H - x R_K). set (b := y R_H - y R_K).
  replace (x R_K - x R_H) with (- a) by (unfold a; lra).
  replace (y R_K - y R_H) with (- b) by (unfold b; lra).
  pose proof (vertical_angle_range a b) as Hv.
  pose proof (vertical_angle_range (- a) (- b)) as Hv'.
  destruct (fold_supplement _ Hv) as [-> Hrange].
  destruct (fold_supplement _ Hv') as [-> _].
  split; [exact Hrange|]. split; [|split].
  - destruct (Req_dec_T a 0) as [Ha | Ha]; [destruct (Req_dec_T b 0) as [Hb | Hb]|].
    + rewrite Ha, Hb. replace (- 0) with 0 by ring. reflexivity.
    + destruct (atan2_abs a b) as [_ Hflip]. rewrite Hflip by (right; exact Hb).
      rewrite Rmin_comm. f_equal; field; lra.
    + destruct (atan2_abs a b) as [_ Hflip]. rewrite Hflip by (left; exact Ha).
      rewrite Rmin_comm. f_equal; field; lra.
  - intros Hx. assert (Ha : a = 0) by (unfold a; lra). rewrite Ha.
    unfold atan2. replace (0 / b) with 0 by (unfold Rdiv; ring). rewrite atan_0.
    destruct (Rtotal_order b 0) as [Hb | [Hb | Hb]].
    + decide_comparisons. rewrite Rplus_0_l, (Rabs_right PI) by lra.
      replace (PI * (180 / PI)) with 180 by (field; lra).
      rewrite Rmin_right by lra. ring.
    + rewrite Hb. decide_comparisons. rewrite Rabs_R0, Rmult_0_l.
      rewrite Rmin_left by lra. reflexivity.
    + decide_comparisons. rewrite Rabs_R0, Rmult_0_l.
      rewrite Rmin_left by lra. reflexivity.
  - intros Hy Hx. assert (Hb : b = 0) by (unfold b; lra). rewrite Hb.
    assert (Ha : a <> 0) by (unfold a; lra).
    unfold atan2. destruct (Rtotal_order a 0) as [Ha' | [Ha' | Ha']];
      [|contradiction|]; decide_comparisons.
    + rewrite Rabs_left by lra.
      replace (- - (PI / 2) * (180 / PI)) with 90 by (field; lra).
      rewrite Rmin_left by lra. reflexivity.
    + rewrite Rabs_right by lra.
      replace (PI / 2 * (180 / PI)) with 90 by (field; lra).
      rewrite Rmin_left by lra. reflexivity.
Qed.

Lemma tiltDiff_folded_witness :
  tiltDiff (point (2/5) (3/4) 1) (point (2/5) (1/4) 1) = 0 /\
  tiltDiff (point (2/5) (1/4) 1) (point (3/5) (1/4) 1) = 90.
Proof.
  split.
  - apply (tiltDiff_folded (point (2/5) (3/4) 1) (point (2/5) (1/4) 1)).
    reflexivity.
  - apply (tiltDiff_folded (point (2/5) (1/4) 1) (point (3/5) (1/4) 1)).
    + reflexivity.
    + simpl. lra.
Defined.

(** X7.  The hip-levelness sub-score does not depend on which hip is higher
    nor on the horizontal positions, equals what a 480-pixel canvas gives
    when there is no canvas, and never goes up when the canvas gets
    taller: the same pose scores lower on a larger surface. *)
Theorem hipBalanceScore_surface (c1 c2 : Canvas) (R_H L_H R_H' L_H' : Point) :
  hipBalanceScore (Some c1) L_H R_H = hipBalanceScore (Some c1) R_H L_H /\
  (y R_H' = y R_H -> y L_H' = y L_H ->
   hipBalanceScore (Some c1) R_H' L_H' = hipBalanceScore (Some c1) R_H L_H) /\
  (height c1 = 480%nat ->
   hipBalanceScore None R_H L_H = hipBalanceScore (Some c1) R_H L_H) /\
  ((height c1 <= height c2)%nat ->
   hipBalanceScore (Some c2) R_H L_H <= hipBalanceScore (Some c1) R_H L_H).
Proof.
  unfold hipBalanceScore, hipDeltaY. split; [|split; [|split]].
  - rewrite Rabs_minus_sym. reflexivity.
  - intros -> ->. reflexivity.
  - intros Hh. simpl. rewrite Hh, INR_IZR_INZ.
    change (Z.of_nat 480) with 480%Z. reflexivity.
  - intros Hh. simpl surface_height. apply le_INR in Hh.
    pose proof (Rabs_pos (y R_H - y L_H)) as Hd.
    pose proof (pos_INR (height c1)) as Hc1.
    apply Rle_max_compat_l. nra.
Qed.

Lemma hipBalanceScore_surface_witness :
  hipBalanceScore (Some {| width := 1280; height := 960 |})
    (point (2/5) (1/2) 1) (point (3/5) (1/2 + 10/480) 1)
  <= hipBalanceScore (Some canvas_480)
       (point (2/5) (1/2) 1) (point (3/5) (1/2 + 10/480) 1).
Proof.
  apply (hipBalanceScore_surface canvas_480 {| width := 1280; height := 960 |}
           (point (2/5) (1/2) 1) (point (3/5) (1/2 + 10/480) 1)
           (point (2/5) (1/2) 1) (point (3/5) (1/2 + 10/480) 1)).
  apply Nat.leb_le. reflexivity.
Defined.

(** ** ScoreEvaluator: the number returned *)

Lemma toFixed1_range (v : R) : 0 <= v <= 100 -> (0 <= toFixed1 v <= 1000)%Z.
Proof.
  intros [Hlo Hhi]. rewrite toFixed1_nonneg by exact Hlo.
  pose proof (Int_part_bounds (10 * v + / 2)) as [Hle Hlt].
  split; apply Z.lt_succ_r, lt_IZR; rewrite succ_IZR; lra.
Qed.

Lemma rounded_is_fixed_point (v : R) :
  0 <= v <= 100 ->
  (0 <= toFixed1 v <= 1000)%Z /\
  toFixed1 (parseFloat_toFixed1 v) = toFixed1 v /\
  parseFloat_toFixed1 (parseFloat_toFixed1 v) = parseFloat_toFixed1 v.
Proof.
  intros Hv. pose proof (toFixed1_range v Hv) as Hn.
  assert (Hfix : toFixed1 (parseFloat_toFixed1 v) = toFixed1 v).
  { unfold parseFloat_toFixed1 at 1. apply toFixed1_tenths. lia. }
  split; [exact Hn|]. split; [exact Hfix|].
  unfold parseFloat_toFixed1 at 1. rewrite Hfix. reflexivity.
Qed.

(** X8.  With positive tolerances a score returned by the evaluator is a
    whole number of tenths between 0.0 and 100.0, so printing it again with
    [toFixed(1)], as the displays and the report do, shows exactly the
    stored number. *)
Theorem score_is_its_own_display (cfg : Config) (cs : list Challenge) (idx : nat)
    (canvasElement : option Canvas) (landmarks : Landmarks) (s : R) :
  0 < TOLERANCE_ELBOW cfg -> 0 < TOLERANCE_SHOULDER cfg ->
  0 < TOLERANCE_KNEE cfg -> 0 < TOLERANCE_TILT cfg ->
  calculateMatchScore cfg cs idx canvasElement landmarks = Ok s ->
  (0 <= toFixed1 s <= 1000)%Z /\
  s = IZR (toFixed1 s) / 10 /\
  parseFloat_toFixed1 s = s.
Proof.
  intros HtE HtS HtK HtT Hs.
  assert (Hcases : s = parseFloat_toFixed1 0 \/
                   exists v, 0 <= v <= 100 /\ s = parseFloat_toFixed1 v).
  { apply calculateMatchScore_inv in Hs
      as [-> | [(pS & pE & pW & pH & ->) | (pK & pA & pRH & pLH & ->)]].
    - left. unfold parseFloat_toFixed1.
      replace 0 with (IZR 0 / 10) at 2 by lra.
      rewrite toFixed1_tenths by lia. lra.
    - right. eexists. split; [|reflexivity]. apply arm_mean_range; assumption.
    - right. eexists. split; [|reflexivity]. apply leg_mean_range; assumption. }
  assert (Hv : exists v, 0 <= v <= 100 /\ s = parseFloat_toFixed1 v).
  { destruct Hcases as [-> | Hex]; [exists 0; split; [lra | reflexivity] | exact Hex]. }
  destruct Hv as (v & Hv & ->).
  destruct (rounded_is_fixed_point v Hv) as (Hn & Hfix & Hpf).
  rewrite Hfix. split; [exact Hn|]. split; [reflexivity | exact Hpf].
Qed.

Lemma score_is_its_own_display_witness :
  (0 <= toFixed1 100 <= 1000)%Z /\ 100 = IZR (toFixed1 100) / 10 /\
  parseFloat_toFixed1 100 = 100.
Proof.
  apply (score_is_its_own_display example_config
           [arm_challenge (Some ["LEFT_WRIST"])] 0 (Some canvas_480)
           (arms_up 1 1) 100); try (simpl; lra).
  exact arm_score_on_target.
Defined.

(** ** PoseGate and ScoreEvaluator together *)

(** What the gate has checked when it answers [true]. *)
Lemma gate_true_inv (cfg : Config) (landmarks : Landmarks) :
  let L := LANDMARK_INDICES cfg in
  isStartPoseAchieved cfg (Some landmarks) = Ok true ->
  exists ls le lw lh rs re rw rh,
    (at_index landmarks (LEFT_SHOULDER L) = Some ls /\ 0.7 <= visibility ls) /\
    (at_index landmarks (LEFT_ELBOW L) = Some le /\ 0.7 <= visibility le) /\
    (at_index landmarks (LEFT_WRIST L) = Some lw /\ 0.7 <= visibility lw) /\
    (at_index landmarks (LEFT_HIP L) = Some lh /\ 0.7 <= visibility lh) /\
    (at_index landmarks (RIGHT_SHOULDER L) = Some rs /\ 0.7 <= visibility rs) /\
    (at_index landmarks (RIGHT_ELBOW L) = Some re /\ 0.7 <= visibility re) /\
    (at_index landmarks (RIGHT_WRIST L) = Some rw /\ 0.7 <= visibility rw) /\
    (at_index landmarks (RIGHT_HIP L) = Some rh /\ 0.7 <= visibility rh) /\
    arm_within_start_tolerance cfg ls le lw lh /\
    arm_within_start_tolerance cfg rs re rw rh.
Proof.
  intros L Htrue.
  destruct (existsb (missing_or_low landmarks) (requiredLandmarks L)) eqn:Hex.
  { unfold isStartPoseAchieved in Htrue; cbv zeta in Htrue. fold L in Htrue.
    rewrite Hex in Htrue. discriminate Htrue. }
  pose proof Hex as Hpass. simpl in Hex.
  repeat (apply orb_false_elim in Hex as [? Hex]).
  repeat match goal with
         | Hm : missing_or_low _ _ = false |- _ =>
             apply missing_or_low_false in Hm as (? & ? & ?)
         end.
  edestruct (gate_accepts cfg landmarks) as (b & Hb & Hiff); try eassumption.
  rewrite Hb in Htrue. injection Htrue as ->.
  destruct (proj1 Hiff eq_refl) as [Hleft Hright].
  do 8 eexists. repeat (split; [split; eassumption|]).
  split; assumption.
Qed.

Lemma linear_score_lower_bound (dev start tol : R) :
  0 < tol -> dev <= start ->
  100 * (1 - start / tol) <= 100 * (1 - dev / tol).
Proof.
  intros Htol Hdev. pose proof (Rinv_0_lt_compat tol Htol) as Hinv.
  unfold Rdiv. nra.
Qed.

(** X9.  A skeleton accepted by the start-pose gate is always scored in full
    on an ARM challenge of either side: the evaluator neither raises nor
    takes the visibility exit, and with positive tolerances each of the two
    sub-scores is at least [100 * (1 - START_TOLERANCE / tolerance)]. *)
Theorem gate_accepted_arm_scored (cfg : Config) (cs : list Challenge) (idx : nat)
    (canvasElement : option Canvas) (landmarks : Landmarks)
    (ch : Challenge) (side : Side) :
  let L := LANDMARK_INDICES cfg in
  isStartPoseAchieved cfg (Some landmarks) = Ok true ->
  cs !! idx = Some ch -> targetType ch = "ARM" -> arm_side ch = Ok side ->
  0 < TOLERANCE_ELBOW cfg -> 0 < TOLERANCE_SHOULDER cfg ->
  exists pS pE pW pH,
    at_index landmarks (side_SHOULDER L side) = Some pS /\
    at_index landmarks (side_ELBOW L side) = Some pE /\
    at_index landmarks (side_WRIST L side) = Some pW /\
    at_index landmarks (side_HIP L side) = Some pH /\
    calculateMatchScore cfg cs idx canvasElement landmarks
    = Ok (parseFloat_toFixed1 (arm_mean cfg pS pE pW pH)) /\
    100 * (1 - START_TOLERANCE cfg / TOLERANCE_ELBOW cfg)
      <= scoreElbow cfg pS pE pW /\
    100 * (1 - START_TOLERANCE cfg / TOLERANCE_SHOULDER cfg)
      <= scoreShoulder cfg pH pS pE.
Proof.
  intros L Hgate Hch Hty Hside HtE HtS.
  destruct (gate_true_inv cfg landmarks Hgate)
    as (ls & le & lw & lh & rs & re & rw & rh
        & [Hls Vls] & [Hle Vle] & [Hlw Vlw] & [Hlh Vlh]
        & [Hrs Vrs] & [Hre Vre] & [Hrw Vrw] & [Hrh Vrh] & [HlE HlS] & [HrE HrS]).
  fold L in Hls, Hle, Hlw, Hlh, Hrs, Hre, Hrw, Hrh.
  destruct side.
  - exists ls, le, lw, lh. repeat (split; [assumption|]). split; [|split].
    + rewrite (calculateMatchScore_arm cfg cs idx canvasElement landmarks
                 ch LEFT ls le lw lh) by assumption.
      rewrite !bool_decide_false by lra. reflexivity.
    + apply linear_score_lower_bound; assumption.
    + apply linear_score_lower_bound; assumption.
  - exists rs, re, rw, rh. repeat (split; [assumption|]). split; [|split].
    + rewrite (calculateMatchScore_arm cfg cs idx canvasElement landmarks
                 ch RIGHT rs re rw rh) by assumption.
      rewrite !bool_decide_false by lra. reflexivity.
    + apply linear_score_lower_bound; assumption.
    + apply linear_score_lower_bound; assumption.
Qed.

(** The example skeleton with both arms visible passes the gate. *)
Lemma gate_accepted_arm_scored_witness :
  exists pS pE pW pH,
    calculateMatchScore example_config [arm_challenge (Some ["RIGHT_WRIST"])] 0
      None (arms_up 1 1)
    = Ok (parseFloat_toFixed1 (arm_mean example_config pS pE pW pH)).
Proof.
  destruct (gate_accepted_arm_scored example_config
              [arm_challenge (Some ["RIGHT_WRIST"])] 0 None (arms_up 1 1)
              (arm_challenge (Some ["RIGHT_WRIST"])) RIGHT)
    as (pS & pE & pW & pH & _ & _ & _ & _ & Hscore & _);
    try reflexivity; try (simpl; lra).
  - exact arms_up_accepted.
  - exists pS, pE, pW, pH. exact Hscore.
Defined.

(** ** ChallengeSessionFSM: from Idle to the start of the timer *)

(** X10.  A frame handled by the [onResults] of an idle render (timer not
    started, not preparing, pose not fixed), which is what the listener of
    the component is, never raises, whatever the skeleton and whatever the
    state committed since.  If the gate accepts the skeleton the frame
    queues exactly the update that enters the preparation phase with the
    message of the render's challenge and one 1500 ms timeout; if the gate
    rejects it the frame queues no update and no timer, and the state is
    unchanged.  The started flag, the fixed flag, the challenges and the
    frozen skeleton of the committed state are never touched. *)
Theorem idle_frame (cfg : Config) (idx : nat) (c : Canvas) (drawingUtils : bool)
    (listener st : ChallengeState) (landmarks : Landmarks) (accepted : bool) :
  isChallengeStarted listener = false -> isInPreparationPhase listener = false ->
  isPoseFixed listener = false -> finalPoseLandmarks listener = None ->
  (idx < length (challenges listener))%nat ->
  isStartPoseAchieved cfg (Some landmarks) = Ok accepted ->
  let run := onResults cfg listener idx (Some c) drawingUtils
               {| poseLandmarks := Some landmarks |} in
  outcome run = Ok tt /\
  effects run =
    (if accepted
     then [SetChallengeState (preparation_updater listener idx);
           SetTimeout (PreparationDone listener) 1500]
     else []) ++ overlay drawingUtils landmarks false /\
  exists st',
    deliver_frame cfg listener idx (Some c) drawingUtils st
      {| poseLandmarks := Some landmarks |} = Ok st' /\
    isInPreparationPhase st' = (accepted || isInPreparationPhase st) /\
    (accepted = false -> st' = st) /\
    (accepted = true ->
     exists ch, challenges listener !! idx = Some ch /\
                guideMessage st' = MsgPreparation (message ch)) /\
    isChallengeStarted st' = isChallengeStarted st /\
    isPoseFixed st' = isPoseFixed st /\
    same_frozen st st'.
Proof.
  intros Hstarted Hprep Hfixed Hnone Hidx Hgate run.
  pose proof Hidx as Hlt. apply lookup_lt_is_Some_2 in Hidx as [ch Hch].
  assert (Hrun : run =
    {| effects := (if accepted
                   then [SetChallengeState (preparation_updater listener idx);
                         SetTimeout (PreparationDone listener) 1500]
                   else []) ++ overlay drawingUtils landmarks false;
       outcome := Ok tt |}).
  { unfold run.
    rewrite (onResults_idle cfg idx c drawingUtils listener landmarks accepted)
      by assumption.
    rewrite (bool_decide_true _ Hlt), andb_true_r. reflexivity. }
  unfold deliver_frame. fold run. rewrite Hrun. simpl effects. simpl outcome.
  split; [reflexivity|]. split; [reflexivity|].
  destruct accepted.
  - exists (entered_preparation (message ch) st). split.
    + cbn [app commit]. rewrite (preparation_updater_enters listener st idx ch Hch).
      cbn [mbind result_bind]. apply (proj2 (commit_overlay _ _ _ [] _)).
    + simpl. repeat split; try reflexivity; try discriminate.
      intros _. exists ch. split; [exact Hch | reflexivity].
  - exists st. split; [apply (proj2 (commit_overlay _ _ _ [] _))|].
    simpl. repeat split; try reflexivity; try discriminate.
Qed.

Lemma idle_frame_witness :
  exists st',
    deliver_frame example_config
      (initialChallengeState [arm_challenge (Some ["LEFT_WRIST"])]) 0
      (Some canvas_480) true fixed_state
      {| poseLandmarks := Some (arms_up 1 1) |} = Ok st' /\
    isInPreparationPhase st' = true /\ isPoseFixed st' = true /\
    guideMessage st' = MsgPreparation "raise the arm".
Proof.
  destruct (idle_frame example_config 0 canvas_480 true
              (initialChallengeState [arm_challenge (Some ["LEFT_WRIST"])])
              fixed_state (arms_up 1 1) true)
    as (_ & _ & st' & Hst' & Hprep & _ & Hmsg & _ & Hfixed & _);
    try reflexivity.
  - simpl. lia.
  - exact arms_up_accepted.
  - exists st'. split; [exact Hst'|]. split; [exact Hprep|].
    split; [exact Hfixed|].
    destruct (Hmsg eq_refl) as (ch & [= <-] & Hm). exact Hm.
Defined.

Lemma timeouts_of_app (es1 es2 : list Effect) :
  timeouts_of (es1 ++ es2) = timeouts_of es1 ++ timeouts_of es2.
Proof. apply omap_app. Qed.

Lemma timeouts_of_overlay (drawingUtils : bool) (landmarks : Landmarks)
    (isFixed : bool) :
  timeouts_of (overlay drawingUtils landmarks isFixed) = [].
Proof. destruct drawingUtils; reflexivity. Qed.

(** X11.  Nothing suspends the start check of the component.  Its listener
    is the [onResults] of the first render, in which the session is neither
    started nor preparing, so every frame the gate accepts queues one more
    1500 ms timeout, also during the preparation phase, the countdown, the
    hold and once the pose is fixed: over a run of frames there are as many
    timeouts as accepted frames.  Each of these timeouts, whenever it fires
    and whatever the state then, starts one more interval, because its
    render has not started the timer. *)
Theorem accepted_frames_start_timers (cfg : Config)
    (CHALLENGES : list Challenge) (c : Canvas) (drawingUtils : bool)
    (frames : list Results) :
  CHALLENGES <> [] ->
  let listener := initialChallengeState CHALLENGES in
  timeouts_of (queued_by_frames cfg CHALLENGES (Some c) drawingUtils frames)
  = replicate (length (List.filter (accepted_frame cfg) frames))
      (PreparationDone listener, 1500%Z) /\
  forall st now,
    effects (run_callback (callback_now (PreparationDone listener) st) now)
    = [SetChallengeState preparation_over_updater;
       SetChallengeState started_updater;
       SetInterval (TimerTick now) 1000] /\
    exists st', process_callback (PreparationDone listener) now st = Ok st' /\
      isChallengeStarted st' = true /\
      isInPreparationPhase st' = false /\
      isPoseFixed st' = isPoseFixed st.
Proof.
  intros Hne listener. split.
  - induction frames as [|results frames IH]; [reflexivity|].
    unfold queued_by_frames in *. cbn [flat_map List.filter].
    rewrite timeouts_of_app, IH. rewrite component_onResults. cbn [effects].
    destruct results as [[landmarks|]].
    + cbn [poseLandmarks]. rewrite timeouts_of_app, timeouts_of_overlay, app_nil_r.
      rewrite (bool_decide_true (0 < length CHALLENGES)%nat)
        by (destruct CHALLENGES; [contradiction | simpl; lia]).
      rewrite andb_true_r.
      destruct (accepted_frame cfg {| poseLandmarks := Some landmarks |});
        reflexivity.
    + reflexivity.
  - intros st now. split; [reflexivity|].
    unfold process_callback. simpl.
    eexists. split; [reflexivity|]. repeat split; reflexivity.
Qed.

Lemma accepted_frames_start_timers_witness :
  timeouts_of
    (queued_by_frames example_config [arm_challenge (Some ["LEFT_WRIST"])]
       (Some canvas_480) true
       [{| poseLandmarks := Some (arms_up 1 1) |};
        {| poseLandmarks := None |};
        {| poseLandmarks := Some (arms_up 1 1) |}])
  = [(PreparationDone
        (initialChallengeState [arm_challenge (Some ["LEFT_WRIST"])]), 1500%Z);
     (PreparationDone
        (initialChallengeState [arm_challenge (Some ["LEFT_WRIST"])]), 1500%Z)].
Proof.
  destruct (accepted_frames_start_timers example_config
              [arm_challenge (Some ["LEFT_WRIST"])] canvas_480 true
              [{| poseLandmarks := Some (arms_up 1 1) |};
               {| poseLandmarks := None |};
               {| poseLandmarks := Some (arms_up 1 1) |}])
    as [Hq _]; [discriminate|].
  rewrite Hq. cbn [List.filter]. rewrite arms_up_accepted_frame. reflexivity.
Defined.

(** X12.  The two start functions are guarded against running twice: once
    the update queued by [startPreparationPhase] is committed, the function
    of the new render queues nothing and neither does its start check; and
    once the update queued by [startChallengeTimer] is committed, the
    function of the new render starts no second interval. *)
Theorem start_functions_run_once (cfg : Config) (st : ChallengeState)
    (idx : nat) (now : Z) :
  isChallengeStarted st = false -> isInPreparationPhase st = false ->
  (idx < length (challenges st))%nat ->
  (exists st',
     commit (effects (startPreparationPhase st idx)) st = Ok st' /\
     startPreparationPhase st' idx = skip /\
     forall landmarks, startCheck cfg st' idx landmarks = skip) /\
  (exists st',
     commit (effects (startChallengeTimer st now)) st = Ok st' /\
     (forall now', startChallengeTimer st' now' = skip) /\
     startPreparationPhase st' idx = skip /\
     forall landmarks, startCheck cfg st' idx landmarks = skip).
Proof.
  intros Hstarted Hprep Hidx.
  apply lookup_lt_is_Some_2 in Hidx as [ch Hch]. split.
  - unfold startPreparationPhase at 1. rewrite Hstarted, Hprep. simpl.
    unfold preparation_updater. rewrite Hch. simpl.
    eexists. split; [reflexivity|]. split.
    + unfold startPreparationPhase. simpl. rewrite orb_true_r. reflexivity.
    + intros landmarks. unfold startCheck. simpl.
      rewrite andb_false_r. reflexivity.
  - unfold startChallengeTimer at 1. rewrite Hstarted. simpl.
    eexists. split; [reflexivity|]. split; [reflexivity|]. split.
    + reflexivity.
    + intros landmarks. reflexivity.
Qed.

Lemma start_functions_run_once_witness :
  exists st',
    commit (effects (startChallengeTimer idle_state 0)) idle_state = Ok st' /\
    forall now', startChallengeTimer st' now' = skip.
Proof.
  destruct (start_functions_run_once example_config idle_state 0 0)
    as (_ & st' & Hst' & Honce & _); try reflexivity.
  - simpl. lia.
  - exists st'. split; [exact Hst' | exact Honce].
Defined.

(** X13.  When the preparation timeout fires, its callback, which still
    sees the render that started the preparation, clears the preparation
    flag and starts the challenge timer with the firing time as start time:
    one interval of 1000 ms, [isChallengeStarted] set.  If that render had
    already started the timer the callback only clears the flag and starts
    no interval. *)
Theorem preparation_timeout (closure st : ChallengeState) (now : Z) :
  (isChallengeStarted closure = false ->
   effects (run_callback (PreparationDone closure) now) =
     [SetChallengeState preparation_over_updater;
      SetChallengeState started_updater;
      SetInterval (TimerTick now) 1000]) /\
  (isChallengeStarted closure = true ->
   effects (run_callback (PreparationDone closure) now) =
     [SetChallengeState preparation_over_updater]) /\
  exists st',
    process_callback (PreparationDone closure) now st = Ok st' /\
    isInPreparationPhase st' = false /\
    isChallengeStarted st' = (isChallengeStarted st
                              || negb (isChallengeStarted closure)) /\
    isPoseFixed st' = isPoseFixed st /\
    timerDisplay st' = timerDisplay st /\
    guideMessage st' = guideMessage st /\
    currentScore st' = currentScore st /\
    same_frozen st st'.
Proof.
  unfold process_callback, callback_now, run_callback, startChallengeTimer.
  cbn [isChallengeStarted objects_now].
  destruct (isChallengeStarted closure); simpl.
  - split; [discriminate|]. split; [reflexivity|].
    eexists. split; [reflexivity|]. simpl. rewrite orb_false_r.
    repeat split; reflexivity.
  - split; [reflexivity|]. split; [discriminate|].
    eexists. split; [reflexivity|]. simpl. rewrite orb_true_r.
    repeat split; reflexivity.
Qed.

Lemma preparation_timeout_witness :
  effects (run_callback (PreparationDone idle_state) 1500) =
    [SetChallengeState preparation_over_updater;
     SetChallengeState started_updater;
     SetInterval (TimerTick 1500) 1000].
Proof.
  apply (preparation_timeout idle_state idle_state 1500). reflexivity.
Defined.

(** ** ChallengeSessionFSM: runs of ticks *)

Lemma process_tick_total (startTime now : Z) (st : ChallengeState) :
  exists st', process_tick startTime now st = Ok st' /\
    same_frozen st st' /\
    isChallengeStarted st' = isChallengeStarted st /\
    isInPreparationPhase st' = isInPreparationPhase st /\
    currentScore st' = currentScore st /\
    isPoseFixed st' =
      (isPoseFixed st || bool_decide (8000 <= now - startTime)%Z).
Proof.
  unfold process_tick.
  destruct (Z_lt_ge_dec (now - startTime) 3000) as [Hc | Hc].
  - assert (Hel : ((now - startTime) / 1000 < 3)%Z)
      by (apply Z.div_lt_upper_bound; lia).
    unfold timerTick, COUNTDOWN_SECONDS. cbv zeta.
    rewrite bool_decide_true by exact Hel. simpl.
    eexists. split; [reflexivity|]. simpl.
    rewrite (bool_decide_false (8000 <= now - startTime)%Z) by lia.
    rewrite orb_false_r. repeat split; reflexivity.
  - destruct (Z_lt_ge_dec (now - startTime) 8000) as [Hh | Hh].
    + rewrite timerTick_hold by lia. simpl.
      eexists. split; [reflexivity|]. simpl.
      rewrite (bool_decide_false (8000 <= now - startTime)%Z) by lia.
      rewrite orb_false_r. repeat split; reflexivity.
    + rewrite timerTick_fixed by lia. simpl.
      eexists. split; [reflexivity|]. simpl.
      rewrite (bool_decide_true (8000 <= now - startTime)%Z) by lia.
      rewrite orb_true_r. repeat split; reflexivity.
Qed.

(** X14.  However many ticks of an interval fire and whenever they fire, even
    with a clock reading before the start time, they never raise and never
    touch a score, the frozen skeleton, the started flag or the displayed
    score, and after them the pose is fixed exactly when it was fixed before
    or one of the ticks fired 8000 ms or more after the start. *)
Theorem ticks_only_fix_the_pose (startTime : Z) (nows : list Z)
    (st : ChallengeState) :
  exists st', process_ticks startTime st nows = Ok st' /\
    same_frozen st st' /\
    isChallengeStarted st' = isChallengeStarted st /\
    currentScore st' = currentScore st /\
    isPoseFixed st' =
      (isPoseFixed st
       || existsb (fun now => bool_decide (8000 <= now - startTime)%Z) nows).
Proof.
  revert st. induction nows as [|now nows IH]; intros st.
  - exists st. simpl. rewrite orb_false_r.
    split; [reflexivity|]. split; [apply same_frozen_refl|].
    repeat split; reflexivity.
  - destruct (process_tick_total startTime now st)
      as (st1 & Hst1 & Hsame1 & Hstarted1 & _ & Hscore1 & Hfixed1).
    destruct (IH st1) as (st2 & Hst2 & Hsame2 & Hstarted2 & Hscore2 & Hfixed2).
    exists st2. simpl. rewrite Hst1. simpl.
    split; [exact Hst2|].
    split; [eapply same_frozen_trans; eassumption|].
    split; [congruence|]. split; [congruence|].
    rewrite Hfixed2, Hfixed1, orb_assoc. reflexivity.
Qed.

(** ** ChallengeSessionFSM: finalization and advance *)

(** X16.  The advance callback, run one second after finalization with the
    render it was created in.  If another challenge remains it resets every
    session flag, the frozen skeleton, the score text and the timer display,
    keeps all challenges with their scores, and requests the next index.  If
    none remains it requests no index and no timer and leaves the flags, the
    frozen skeleton and the challenges as they are: the session stays
    fixed. *)
Theorem advance_callback (closure st : ChallengeState) (idx : nat) (now : Z) :
  let run := run_callback (AdvanceChallenge closure idx) now in
  ((idx + 1 < length (challenges closure))%nat ->
   effects run = [SetChallengeState reset_updater;
                  SetCurrentChallengeIndex (idx + 1)] /\
   exists st', process_callback (AdvanceChallenge closure idx) now st = Ok st' /\
     challenges st' = challenges st /\
     isPoseFixed st' = false /\ isChallengeStarted st' = false /\
     isInPreparationPhase st' = false /\ finalPoseLandmarks st' = None /\
     currentScore st' = ScoreDashes /\ timerDisplay st' = TimerNull /\
     guideMessage st' = MsgRaiseBothArms) /\
  ((length (challenges closure) <= idx + 1)%nat ->
   (forall e, In e (effects run) ->
      match e with
      | SetCurrentChallengeIndex _ | SetTimeout _ _ | SetInterval _ _ => False
      | _ => True
      end) /\
   exists st', process_callback (AdvanceChallenge closure idx) now st = Ok st' /\
     same_frozen st st' /\
     isPoseFixed st' = isPoseFixed st /\
     isChallengeStarted st' = isChallengeStarted st /\
     isInPreparationPhase st' = isInPreparationPhase st /\
     timerDisplay st' = timerDisplay st).
Proof.
  intros run.
  unfold run, process_callback, callback_now, run_callback, resetChallenge.
  cbv zeta. rewrite objects_now_length. split.
  - intros Hmore. rewrite !bool_decide_true by exact Hmore. simpl.
    split; [reflexivity|]. eexists. split; [reflexivity|].
    simpl. repeat split; reflexivity.
  - intros Hlast. rewrite !bool_decide_false by lia.
    unfold showFinalResults. cbv zeta. split.
    + simpl. intros e [<- | [<- | [<- | [<- | []]]]]; exact I.
    + set (mean := averageScore_of (challenges (objects_now closure st))).
      destruct (final_updater_tier mean st) as (st' & Hst' & _ & Hcs & _).
      cbn [effects emit mbind handler_bind outcome app commit].
      rewrite Hst'. cbn [mbind result_bind]. exists st'. split; [reflexivity|].
      unfold final_updater in Hst'.
      destruct (bool_decide (mean > 90));
        injection Hst' as <-; simpl; repeat split; reflexivity.
Qed.

Lemma advance_callback_witness :
  effects (run_callback
             (AdvanceChallenge
                {| isPoseFixed := true; isChallengeStarted := true;
                   isInPreparationPhase := false; finalPoseLandmarks := None;
                   currentScore := ScoreDashes; guideMessage := MsgPoseFixed;
                   timerDisplay := TimerNull; challenges := three_scores;
                   scoreColor := "#4CAF50" |} 0) 9000)
  = [SetChallengeState reset_updater; SetCurrentChallengeIndex 1].
Proof.
  apply (advance_callback
           {| isPoseFixed := true; isChallengeStarted := true;
              isInPreparationPhase := false; finalPoseLandmarks := None;
              currentScore := ScoreDashes; guideMessage := MsgPoseFixed;
              timerDisplay := TimerNull; challenges := three_scores;
              scoreColor := "#4CAF50" |} fixed_state 0 9000).
  simpl. lia.
Defined.




(** ** ChallengeSessionFSM: what a frame can change *)

Lemma frame_step_refl (idx : nat) (st : ChallengeState) : frame_step idx st st.
Proof.
  repeat split; try reflexivity.
  intros j c Hc. exists c. repeat split; intros; first [assumption | reflexivity].
Qed.

Lemma frame_step_trans (idx : nat) (a b c : ChallengeState) :
  frame_step idx a b -> frame_step idx b c -> frame_step idx a c.
Proof.
  intros (Hf1 & Hs1 & Ht1 & Hl1 & Hc1) (Hf2 & Hs2 & Ht2 & Hl2 & Hc2).
  repeat split; try congruence.
  intros j ca Hca. destruct (Hc1 j ca Hca) as (cb & Hcb & (Hn & Hty & He & Hm) & Hne).
  destruct (Hc2 j cb Hcb) as (cc & Hcc & (Hn' & Hty' & He' & Hm') & Hne').
  exists cc. split; [exact Hcc|]. split.
  - repeat split; congruence.
  - intros Hj. rewrite (Hne' Hj), (Hne Hj). reflexivity.
Qed.

(** Committing updaters that each keep an invariant keeps it. *)
Lemma commit_invariant (I : ChallengeState -> Prop) (es : list Effect)
    (st st' : ChallengeState) :
  Forall (fun e => match e with
                   | SetChallengeState updater =>
                       forall a b, I a -> updater a = Ok b -> I b
                   | _ => True
                   end) es ->
  I st -> commit es st = Ok st' -> I st'.
Proof.
  intros Hes. revert st. induction Hes as [|e es He _ IH]; intros st HI Hc.
  - injection Hc as <-. exact HI.
  - destruct e; simpl in Hc; try (apply (IH st HI Hc)).
    destruct (updater st) as [st1|err] eqn:Hu; simpl in Hc; [|discriminate].
    apply (IH st1); [apply (He st st1 HI Hu) | exact Hc].
Qed.

Lemma finalize_updater_step (idx : nat) (landmarks : Landmarks) (s : R)
    (a b : ChallengeState) :
  finalize_updater idx landmarks s a = Ok b ->
  frame_step idx a b /\
  forall j c, challenges b !! j = Some c ->
    (j = idx /\ score c = s) \/ (j <> idx /\ challenges a !! j = Some c).
Proof.
  unfold finalize_updater.
  destruct (challenges a !! idx) as [c0|] eqn:Hc0; simpl; [|discriminate].
  pose proof (lookup_lt_Some _ _ _ Hc0) as Hlt.
  assert (Hb : forall m col, 
    b = {| isPoseFixed := isPoseFixed a;
           isChallengeStarted := isChallengeStarted a;
           isInPreparationPhase := isInPreparationPhase a;
           finalPoseLandmarks := Some landmarks;
           currentScore := ScoreFinal (toFixed1 s);
           guideMessage := m; timerDisplay := timerDisplay a;
           challenges :=
             <[idx := {| name := name c0; targetType := targetType c0;
                         evalJoints := evalJoints c0; message := message c0;
                         score := s |}]> (challenges a);
           scoreColor := col |} ->
    frame_step idx a b /\
    forall j c, challenges b !! j = Some c ->
      (j = idx /\ score c = s) \/ (j <> idx /\ challenges a !! j = Some c)).
  { intros m col ->. split.
    - unfold frame_step. simpl.
      split; [reflexivity|]. split; [reflexivity|]. split; [reflexivity|].
      split; [apply length_insert|].
      intros j c Hc. destruct (decide (j = idx)) as [-> | Hj].
      + rewrite list_lookup_insert_eq by exact Hlt. eexists.
        split; [reflexivity|]. rewrite Hc0 in Hc. injection Hc as <-.
        split; [repeat split; reflexivity | intros Hne; contradiction].
      + rewrite list_lookup_insert_ne by congruence. exists c.
        split; [exact Hc|]. split; [repeat split; reflexivity | reflexivity].
    - simpl. intros j c Hc. destruct (decide (j = idx)) as [-> | Hj].
      + rewrite list_lookup_insert_eq in Hc by exact Hlt.
        injection Hc as <-. left. split; reflexivity.
      + rewrite list_lookup_insert_ne in Hc by congruence.
        right. split; assumption. }
  destruct (bool_decide (s > 90)); [|destruct (bool_decide (s > 70))];
    intros [= <-]; eapply Hb; reflexivity.
Qed.

Lemma preparation_updater_step (closure : ChallengeState) (idx : nat)
    (a b : ChallengeState) :
  preparation_updater closure idx a = Ok b ->
  frame_step idx a b /\ challenges b = challenges a.
Proof.
  unfold preparation_updater.
  destruct (challenges closure !! idx) as [c0|]; simpl; [|discriminate].
  intros [= <-]. split; [|reflexivity].
  repeat split; try reflexivity.
  intros j c Hc. exists c. simpl.
  repeat split; intros; first [assumption | reflexivity].
Qed.

Lemma live_updater_step (idx : nat) (s : R) (a b : ChallengeState) :
  live_updater s a = Ok b -> frame_step idx a b /\ challenges b = challenges a.
Proof.
  unfold live_updater. intros [= <-]. split; [|reflexivity].
  repeat split; try reflexivity.
  intros j c Hc. exists c. simpl.
  repeat split; intros; first [assumption | reflexivity].
Qed.

Lemma handler_bind_Forall {A B : Type} (P : Effect -> Prop)
    (m : Handler A) (f : A -> Handler B) :
  Forall P (effects m) -> (forall a, Forall P (effects (f a))) ->
  Forall P (effects (m ≫= f)).
Proof.
  intros Hm Hf. unfold mbind, handler_bind.
  destruct (outcome m) as [a|err]; simpl; [|exact Hm].
  apply Forall_app. split; [exact Hm | apply Hf].
Qed.

Lemma startCheck_effects (cfg : Config) (st : ChallengeState) (idx : nat)
    (canvasElement : option Canvas) (landmarks : Landmarks) :
  Forall (frame_effect cfg st idx canvasElement landmarks)
    (effects (startCheck cfg st idx landmarks)).
Proof.
  unfold startCheck. apply handler_bind_Forall.
  - destruct (_ && _ && _); [|constructor].
    destruct (isStartPoseAchieved_total cfg (Some landmarks)) as [b ->].
    constructor.
  - intros [|]; [|constructor]. unfold startPreparationPhase.
    destruct (_ || _); [constructor|].
    simpl; constructor; [left; reflexivity|].
    simpl; constructor; [exact I | constructor].
Qed.

Lemma fixPose_effects (cfg : Config) (st : ChallengeState) (idx : nat)
    (canvasElement : option Canvas) (landmarks : Landmarks) :
  Forall (frame_effect cfg st idx canvasElement landmarks)
    (effects (fixPose cfg st idx canvasElement landmarks)).
Proof.
  unfold fixPose. destruct (_ && _); [|constructor]. cbv zeta.
  destruct (calculateMatchScore cfg (challenges st) idx canvasElement landmarks)
    as [s|err] eqn:Hs; [|constructor].
  simpl. constructor.
  - right. exists s. split; [exact Hs | left; reflexivity].
  - simpl; constructor; [exact I | constructor].
Qed.

Lemma drawAndLiveScore_effects (cfg : Config) (st : ChallengeState) (idx : nat)
    (canvasElement : option Canvas) (drawingUtils : bool) (landmarks : Landmarks) :
  Forall (frame_effect cfg st idx canvasElement landmarks)
    (effects (drawAndLiveScore cfg st idx canvasElement drawingUtils landmarks)).
Proof.
  unfold drawAndLiveScore. cbv zeta. apply handler_bind_Forall.
  - destruct drawingUtils; [|constructor].
    simpl; constructor; [exact I | constructor].
  - intros _. destruct (_ && _); [|constructor].
    destruct (calculateMatchScore cfg (challenges st) idx canvasElement landmarks)
      as [s|err] eqn:Hs; [|constructor].
    simpl; constructor; [|constructor].
    right. exists s. split; [exact Hs | right; reflexivity].
Qed.

(** Every updater queued by a frame is one of three. *)
Lemma onResults_effects (cfg : Config) (st : ChallengeState) (idx : nat)
    (c : Canvas) (drawingUtils : bool) (landmarks : Landmarks) :
  Forall (frame_effect cfg st idx (Some c) landmarks)
    (effects (onResults cfg st idx (Some c) drawingUtils
                {| poseLandmarks := Some landmarks |})).
Proof.
  unfold onResults. simpl poseLandmarks.
  apply handler_bind_Forall; [apply startCheck_effects|]. intros _.
  apply handler_bind_Forall; [apply fixPose_effects|]. intros _.
  apply drawAndLiveScore_effects.
Qed.

Lemma frame_effect_step (cfg : Config) (listener st : ChallengeState)
    (idx : nat) (canvasElement : option Canvas) (landmarks : Landmarks)
    (e : Effect) :
  frame_effect cfg listener idx canvasElement landmarks e ->
  match e with
  | SetChallengeState updater =>
      forall a b, frame_step idx st a -> updater a = Ok b -> frame_step idx st b
  | _ => True
  end.
Proof.
  destruct e; try (intros _; exact I).
  intros [-> | (s & _ & [-> | ->])] a b Ha Hb;
    apply (frame_step_trans idx st a b Ha).
  - apply (preparation_updater_step listener idx a b Hb).
  - apply (finalize_updater_step idx landmarks s a b Hb).
  - apply (live_updater_step idx s a b Hb).
Qed.

Lemma deliver_frame_step (cfg : Config) (listener : ChallengeState) (idx : nat)
    (canvasElement : option Canvas) (drawingUtils : bool)
    (st st' : ChallengeState) (results : Results) :
  deliver_frame cfg listener idx canvasElement drawingUtils st results = Ok st' ->
  frame_step idx st st'.
Proof.
  unfold deliver_frame. destruct canvasElement as [c|];
    [|intros [= <-]; apply frame_step_refl].
  destruct results as [[landmarks|]]; [|intros [= <-]; apply frame_step_refl].
  intros Hc.
  eapply (commit_invariant (frame_step idx st)); [|apply frame_step_refl|exact Hc].
  eapply Forall_impl; [apply onResults_effects|].
  intros e He.
  apply (frame_effect_step cfg listener st idx (Some c) landmarks e He).
Qed.

(** X17.  Whichever render's [onResults] the detector holds, a frame whose
    updates commit changes, among the challenges of the committed state, at
    most the score of the challenge at the index of that render: the list
    keeps its length, every challenge keeps its name, type, evaluation
    joints and message, and every other challenge is untouched.  It never
    changes [isPoseFixed], [isChallengeStarted] or the timer display.  This
    covers the listener of the component, the first render at index 0. *)
Theorem frame_changes_only_current_score (cfg : Config)
    (listener : ChallengeState) (idx : nat)
    (canvasElement : option Canvas) (drawingUtils : bool)
    (st st' : ChallengeState) (results : Results) :
  deliver_frame cfg listener idx canvasElement drawingUtils st results = Ok st' ->
  frame_step idx st st'.
Proof. apply deliver_frame_step. Qed.

Lemma frame_changes_only_current_score_witness :
  frame_step 0 fixed_state (entered_preparation "raise the arm" fixed_state).
Proof.
  apply (frame_changes_only_current_score example_config
           (initialChallengeState [arm_challenge (Some ["LEFT_WRIST"])]) 0
           (Some canvas_480) true fixed_state
           (entered_preparation "raise the arm" fixed_state)
           {| poseLandmarks := Some (arms_up 1 1) |}).
  change (component_frame example_config [arm_challenge (Some ["LEFT_WRIST"])]
            (Some canvas_480) true fixed_state
            {| poseLandmarks := Some (arms_up 1 1) |}
          = Ok (entered_preparation "raise the arm" fixed_state)).
  rewrite component_frame_result. cbn [lookup list_lookup].
  rewrite arms_up_accepted_frame. reflexivity.
Defined.

(** ** The session as a run of events *)

(** A timer callback always commits; it keeps the challenges and freezes
    no skeleton. *)
Lemma process_callback_total (callback : TimerCallback) (now : Z)
    (st : ChallengeState) :
  exists st', process_callback callback now st = Ok st' /\
    challenges st' = challenges st /\
    (finalPoseLandmarks st = None -> finalPoseLandmarks st' = None).
Proof.
  unfold process_callback.
  destruct callback as [closure | closure idx | startTime];
    cbn [callback_now run_callback].
  - unfold startChallengeTimer. cbn [isChallengeStarted objects_now].
    destruct (isChallengeStarted closure); simpl;
      (eexists; split; [reflexivity|]; simpl; split; [reflexivity | tauto]).
  - unfold resetChallenge. cbv zeta. destruct (bool_decide _).
    + simpl. eexists. split; [reflexivity|]. simpl. split; reflexivity.
    + unfold showFinalResults. cbv zeta.
      set (mean := averageScore_of (challenges (objects_now closure st))).
      cbn [effects emit mbind handler_bind outcome app commit].
      unfold final_updater.
      destruct (bool_decide (mean > 90)); simpl;
        (eexists; split; [reflexivity|]; simpl; split; [reflexivity | tauto]).
  - destruct (process_tick_total startTime now st)
      as (st' & Hst' & [Hc Hf] & _).
    exists st'. split; [exact Hst'|]. split; [exact Hc|].
    intros Hnone. rewrite Hf. exact Hnone.
Qed.

(** X18.  Whatever frames and timer callbacks reach the component, in any
    order, every one of them commits, and the challenges of the state stay
    exactly as they were, scores included: the only assignment to a score
    sits in step 2 of [onResults], which the listener of the component
    never reaches.  For the same reason no skeleton is ever frozen. *)
Theorem session_keeps_challenges (cfg : Config) (CHALLENGES : list Challenge)
    (evs : list Event) (st : ChallengeState) :
  exists st', component_events cfg CHALLENGES st evs = Ok st' /\
    challenges st' = challenges st /\
    (finalPoseLandmarks st = None -> finalPoseLandmarks st' = None).
Proof.
  unfold component_events. revert st.
  induction evs as [|ev evs IH]; intros st.
  - exists st. split; [reflexivity|]. split; [reflexivity | tauto].
  - assert (Hev : exists st1,
      handle_event cfg (initialChallengeState CHALLENGES) 0 st ev = Ok st1 /\
      challenges st1 = challenges st /\
      (finalPoseLandmarks st = None -> finalPoseLandmarks st1 = None)).
    { destruct ev as [canvasElement drawingUtils results | callback now].
      - cbn [handle_event].
        change (deliver_frame cfg (initialChallengeState CHALLENGES) 0
                  canvasElement drawingUtils st results)
          with (component_frame cfg CHALLENGES canvasElement drawingUtils st
                  results).
        rewrite component_frame_result. eexists. split; [reflexivity|].
        destruct canvasElement; [|split; [reflexivity | tauto]].
        destruct (CHALLENGES !! 0%nat); [|split; [reflexivity | tauto]].
        destruct (accepted_frame cfg results);
          split; first [reflexivity | tauto].
      - apply process_callback_total. }
    destruct Hev as (st1 & Hst1 & Hc1 & Hf1).
    destruct (IH st1) as (st2 & Hst2 & Hc2 & Hf2).
    exists st2. cbn [handle_events]. rewrite Hst1. cbn [mbind result_bind].
    split; [exact Hst2|]. split; [congruence | tauto].
Qed.

Lemma session_keeps_challenges_witness :
  exists st',
    component_events example_config [arm_challenge (Some ["LEFT_WRIST"])]
      (initialChallengeState [arm_challenge (Some ["LEFT_WRIST"])])
      [FrameEvent (Some canvas_480) true {| poseLandmarks := Some (arms_up 1 1) |};
       TimerEvent
         (PreparationDone
            (initialChallengeState [arm_challenge (Some ["LEFT_WRIST"])])) 1500;
       TimerEvent (TimerTick 1500) 9500;
       FrameEvent (Some canvas_480) true {| poseLandmarks := Some (arms_up 1 1) |}]
    = Ok st' /\
    challenges st' = [arm_challenge (Some ["LEFT_WRIST"])] /\
    finalPoseLandmarks st' = None.
Proof.
  destruct (session_keeps_challenges example_config
              [arm_challenge (Some ["LEFT_WRIST"])]
              [FrameEvent (Some canvas_480) true
                 {| poseLandmarks := Some (arms_up 1 1) |};
               TimerEvent
                 (PreparationDone
                    (initialChallengeState [arm_challenge (Some ["LEFT_WRIST"])]))
                 1500;
               TimerEvent (TimerTick 1500) 9500;
               FrameEvent (Some canvas_480) true
                 {| poseLandmarks := Some (arms_up 1 1) |}]
              (initialChallengeState [arm_challenge (Some ["LEFT_WRIST"])]))
    as (st' & Hrun & Hcs & Hnone).
  exists st'. split; [exact Hrun|]. split; [exact Hcs|].
  apply Hnone. reflexivity.
Defined.

(** ** ResultAggregator: the mean between the extremes *)

Lemma sum_scores_bounds (cs : list Challenge) (lo hi : R) :
  Forall (fun c => lo <= score c <= hi) cs ->
  lo * INR (length cs) <= sum_scores cs <= hi * INR (length cs).
Proof.
  induction 1 as [|c cs Hc _ IH].
  - simpl. lra.
  - change (sum_scores (c :: cs)) with (score c + sum_scores cs).
    change (length (c :: cs)) with (S (length cs)). rewrite S_INR. lra.
Qed.

Lemma sum_scores_above (cs : list Challenge) (lo : R) :
  cs <> [] -> Forall (fun c => lo < score c) cs ->
  lo * INR (length cs) < sum_scores cs.
Proof.
  intros Hne Hall. induction Hall as [|c cs Hc Hall IH]; [contradiction|].
  change (sum_scores (c :: cs)) with (score c + sum_scores cs).
  change (length (c :: cs)) with (S (length cs)). rewrite S_INR.
  destruct cs as [|c' cs'].
  - simpl. lra.
  - assert (Hrec : lo * INR (length (c' :: cs')) < sum_scores (c' :: cs'))
      by (apply IH; discriminate).
    lra.
Qed.

Lemma length_positive (cs : list Challenge) : cs <> [] -> 0 < INR (length cs).
Proof.
  intros Hne. destruct cs as [|c cs]; [contradiction|].
  change (length (c :: cs)) with (S (length cs)). rewrite S_INR.
  pose proof (pos_INR (length cs)). lra.
Qed.

(** X19.  For a non-empty challenge list the average shown by
    [showFinalResults] lies between any two bounds that hold for every
    score, so between the lowest and the highest score.  Hence the retry
    headline is chosen when no challenge scored above 90 and the success
    headline when every challenge did. *)
Theorem average_between_extremes (st prev : ChallengeState) :
  let cs := challenges st in
  let averageScore := averageScore_of cs in
  cs <> [] ->
  (forall lo hi, Forall (fun c => lo <= score c <= hi) cs ->
                 lo <= averageScore <= hi) /\
  (Forall (fun c => score c <= 90) cs ->
   exists st', final_updater averageScore prev = Ok st' /\
     guideMessage st' = MsgAllDoneRetry (toFixed1 averageScore)) /\
  (Forall (fun c => 90 < score c) cs ->
   exists st', final_updater averageScore prev = Ok st' /\
     guideMessage st' = MsgAllDonePerfect (toFixed1 averageScore)).
Proof.
  intros cs averageScore Hne.
  pose proof (length_positive cs Hne) as Hn.
  pose proof (Rinv_0_lt_compat _ Hn) as Hinv.
  assert (Hbounds : forall lo hi, Forall (fun c => lo <= score c <= hi) cs ->
                                  lo <= averageScore <= hi).
  { intros lo hi Hall. unfold averageScore. rewrite averageScore_is_mean.
    unfold mean_of_scores. destruct (sum_scores_bounds cs lo hi Hall) as [Hlo Hhi].
    split.
    - apply (Rmult_le_reg_r (INR (length cs))); [exact Hn|].
      unfold Rdiv. rewrite Rmult_assoc, Rinv_l by lra. lra.
    - apply (Rmult_le_reg_r (INR (length cs))); [exact Hn|].
      unfold Rdiv. rewrite Rmult_assoc, Rinv_l by lra. lra. }
  split; [exact Hbounds|].
  destruct (final_updater_tier averageScore prev)
    as (st' & Hst' & _ & _ & Hsuccess & Hretry).
  split.
  - intros Hall. exists st'. split; [exact Hst'|]. apply Hretry.
    assert (Hsum : sum_scores cs <= 90 * INR (length cs)).
    { clear -Hall. induction Hall as [|c cs Hc _ IH]; [simpl; lra|].
      change (sum_scores (c :: cs)) with (score c + sum_scores cs).
      change (length (c :: cs)) with (S (length cs)). rewrite S_INR. lra. }
    unfold averageScore. rewrite averageScore_is_mean. unfold mean_of_scores.
    apply (Rmult_le_reg_r (INR (length cs))); [exact Hn|].
    unfold Rdiv. rewrite Rmult_assoc, Rinv_l by lra. lra.
  - intros Hall. exists st'. split; [exact Hst'|]. apply Hsuccess.
    pose proof (sum_scores_above cs 90 Hne Hall) as Hsum.
    unfold averageScore. rewrite averageScore_is_mean. unfold mean_of_scores.
    apply (Rmult_lt_reg_r (INR (length cs))); [exact Hn|].
    unfold Rdiv. rewrite Rmult_assoc, Rinv_l by lra. lra.
Qed.

Lemma average_between_extremes_witness :
  60 <= averageScore_of three_scores <= 100.
Proof.
  pose (st := {| isPoseFixed := true; isChallengeStarted := true;
                 isInPreparationPhase := false; finalPoseLandmarks := Some [];
                 currentScore := ScoreDashes; guideMessage := MsgPoseFixed;
                 timerDisplay := TimerNull; challenges := three_scores;
                 scoreColor := "#4CAF50" |}).
  destruct (average_between_extremes st st) as (Hbounds & _); [discriminate|].
  apply Hbounds. repeat constructor; simpl; lra.
Defined.

(** ** The session of the component *)




(** X21.  What a run of frames does to the component, exactly.  With no
    canvas or no challenge configured it does nothing.  Otherwise, if the
    gate accepts the skeleton of at least one frame, the state is the one
    before the run with the preparation flag set and the preparation
    message of the first challenge; if it accepts none, the state is
    unchanged.  No other field can change, whatever the phase of the
    session. *)
Theorem frames_only_enter_preparation (cfg : Config)
    (CHALLENGES : list Challenge) (canvasElement : option Canvas)
    (drawingUtils : bool) (frames : list Results) (st : ChallengeState) :
  component_frames cfg CHALLENGES canvasElement drawingUtils st frames
  = Ok (match canvasElement, CHALLENGES !! 0%nat with
        | Some _, Some ch =>
            if existsb (accepted_frame cfg) frames
            then entered_preparation (message ch) st
            else st
        | _, _ => st
        end).
Proof. apply component_frames_result. Qed.

